(** * Session layer of the spectrum proxy (session/session.go)

    A shallow embedding of [Session]: construction and asynchronous startup,
    the transfer handshake, and shutdown.  Calls into collaborators that live
    outside session.go (client connection, dialer, tracker, animation,
    registry, logger) are recorded as events of a chronological trace, so
    that ordering and exactly-once properties can be stated on the trace. *)

From Stdlib Require Import ZArith QArith Qround List String Bool Lia.
Import ListNotations.
Open Scope string_scope.
Open Scope list_scope.
Open Scope Z_scope.

(** ** Machine integers and float32 conversions *)

Module Int32.

Definition min_int : Z := - 2 ^ 31.
Definition max_int : Z := 2 ^ 31 - 1.

Definition in_range (z : Z) : bool := (min_int <=? z) && (z <=? max_int).

(** Two's-complement wrap-around of int32 arithmetic. *)
Definition wrap (z : Z) : Z := (z + 2 ^ 31) mod 2 ^ 32 - 2 ^ 31.

Definition add (a b : Z) : Z := wrap (a + b).
Definition sub (a b : Z) : Z := wrap (a - b).

(** [>>] on a signed operand is an arithmetic shift. *)
Definition shr (a n : Z) : Z := Z.shiftr a n.

(** A finite float32 is a dyadic rational; it is modelled as a rational.
    [int32(f)] discards the fraction (truncation towards zero).  A value
    that does not fit has an implementation-specific result; amd64 yields
    the minimal integer. *)
Definition truncate (q : Q) : Z := Z.quot (Qnum q) (Zpos (Qden q)).

Definition of_float32 (q : Q) : Z :=
  let t := truncate q in
  if in_range t then t else min_int.

(** [uint32(i)] of an int32 value. *)
Definition to_uint32 (i : Z) : Z := i mod 2 ^ 32.

(** The values of [for x := lo; x <= hi; x++], for bounds that stay clear of
    the maximal integer. *)
Definition range (lo hi : Z) : list Z :=
  map (fun i => lo + Z.of_nat i) (seq 0 (Z.to_nat (hi - lo + 1))).

End Int32.

(** ** Protocol data (the parts of gophertunnel that session.go builds) *)

Definition error := string.

Record Vec3 := { vecX : Q; vecY : Q; vecZ : Q }.

Inductive GameRuleValue :=
| RuleBool (b : bool)
| RuleUint (n : Z)
| RuleFloat (q : Q).

Record GameRule := { ruleName : string; ruleValue : GameRuleValue }.

Record GameData := {
  EntityRuntimeID : Z;
  PlayerPosition : Vec3;
  Pitch : Q;
  Yaw : Q;
  Dimension : Z;
  Difficulty : Z;
  PlayerGameMode : Z;
  GameRules : list GameRule
}.

Record IdentityData := { XUID : string; DisplayName : string }.

(** Entity flags named by [sendMetadata]; a metadata value is the sequence of
    [SetFlag] calls applied to [NewEntityMetadata()]. *)
Inductive EntityDataFlag :=
| EntityDataFlagNoAI
| EntityDataFlagBreathing
| EntityDataFlagHasGravity.

Definition EntityMetadata := list EntityDataFlag.

Definition NewEntityMetadata : EntityMetadata := [].
Definition SetFlag (f : EntityDataFlag) (m : EntityMetadata) : EntityMetadata :=
  m ++ [f].

(** gophertunnel's packet package: the constants and packets used here.
    [Relayed] stands for any packet a backend sent, which the session passes
    on unread. *)
Module packet.

Definition DimensionNether : Z := 1.
Definition MoveModeReset : Z := 1.
Definition LevelEventStopRaining : Z := 3003.
Definition LevelEventStopThunderstorm : Z := 3004.

Inductive Packet :=
| SetActorData (rid : Z) (metadata : EntityMetadata)
| LevelChunk (dimension : Z) (position : Z * Z) (subChunkCount : Z)
             (rawPayload : list Byte.byte)
| MovePlayer (rid : Z) (position : Vec3) (pitch yaw : Q) (mode : Z)
| LevelEvent (eventType eventData : Z)
| SetDifficulty (difficulty : Z)
| SetPlayerGameType (gameType : Z)
| GameRulesChanged (rules : list GameRule)
| Disconnect (message : string)
| Relayed (id : Z) (payload : list Byte.byte).

End packet.

Definition Packet := packet.Packet.

(** ** Connections *)

(** minecraft.Conn as far as the session reads it; [clientGameData] is what
    its [GameData()] returns at the moment. *)
Record ClientConn := {
  RemoteAddr : string;
  clientIdentity : IdentityData;
  clientGameData : GameData
}.

(** server.Conn: an identity, the start state received during the handshake
    and the packets buffered while it ran. *)
Record Conn := {
  connId : nat;
  connGameData : GameData;
  ReadDeferred : list Packet
}.

(** Outcome of [server.Dialer.Dial]: an error, or an established connection. *)
Definition Dialer := string -> error + Conn.

(** ** Events *)

Inductive TrackerClear :=
| clearEffects
| clearEntities
| clearBossBars
| clearPlayers
| clearScoreboards.

Inductive Goroutine :=
| handleIncoming
| handleOutgoing
| handleLatency (interval : Z).

Inductive LogLevel := LvlError | LvlInfo | LvlDebug.

Inductive event :=
| EvWritePacket (pk : Packet)
| EvClientClose
| EvStartGame (gd : GameData)
| EvDial (origin : string) (identity : IdentityData) (addr : string)
| EvServerClose (c : Conn)
| EvAnimationPlay (gd : GameData)
| EvAnimationClear (gd : GameData)
| EvTracker (op : TrackerClear)
| EvAddSession (xuid : string)
| EvRemoveSession (xuid : string)
| EvGo (g : Goroutine)
| EvLog (lvl : LogLevel) (msg : string)
| EvSetServerAddr (addr : string)
| EvSetServerConn (c : option Conn).

Definition is_write (e : event) : bool :=
  match e with EvWritePacket _ => true | _ => false end.
Definition is_client_close (e : event) : bool :=
  match e with EvClientClose => true | _ => false end.
Definition is_server_close (e : event) : bool :=
  match e with EvServerClose _ => true | _ => false end.
Definition is_tracker (e : event) : bool :=
  match e with EvTracker _ => true | _ => false end.
Definition is_add_session (e : event) : bool :=
  match e with EvAddSession _ => true | _ => false end.
Definition is_remove_session (e : event) : bool :=
  match e with EvRemoveSession _ => true | _ => false end.
Definition is_go (e : event) : bool :=
  match e with EvGo _ => true | _ => false end.



Definition countb {A} (p : A -> bool) (l : list A) : nat :=
  List.length (filter p l).

(** ** Session state *)

(** sync.RWMutex: a writer or a number of readers, and whether a writer has
    called [Lock] and waits for it; a waiting writer keeps new readers
    out. *)
Record RWMutex := { writer : bool; readers : nat; waiting : bool }.

(** [Lock] goes through: no writer, no reader, nobody waiting before us. *)
Definition rw_free (m : RWMutex) : bool :=
  negb (writer m) && Nat.eqb (readers m) 0 && negb (waiting m).

Record Session := {
  clientConn : ClientConn;
  serverAddr : string;
  serverConn : option Conn;
  serverMu : RWMutex;
  latency : Z;
  once : bool;
  transferring : bool
}.

(** The session together with the history of its calls to collaborators. *)
Record World := { sess : Session; trace : list event }.

(** How a call ends: it returns, it panics, or it waits for a lock that no
    one in this world will release. *)
Inductive Outcome (A : Type) :=
| Returned (a : A)
| Panicked (msg : string)
| Blocked.
Arguments Returned {A} a.
Arguments Panicked {A} msg.
Arguments Blocked {A}.

Definition M (A : Type) := World -> Outcome A * World.

Definition ret {A} (a : A) : M A := fun w => (Returned a, w).

Definition bind {A B} (m : M A) (k : A -> M B) : M B :=
  fun w =>
    match m w with
    | (Returned a, w') => k a w'
    | (Panicked msg, w') => (Panicked msg, w')
    | (Blocked, w') => (Blocked, w')
    end.

Notation "x <- m ;; k" := (bind m (fun x => k))
  (at level 61, m at next level, right associativity).
Notation "m ;; k" := (bind m (fun _ => k))
  (at level 61, right associativity).

Definition panic {A} (msg : string) : M A := fun w => (Panicked msg, w).

Definition emit (e : event) : M unit :=
  fun w => (Returned tt, {| sess := sess w; trace := trace w ++ [e] |}).

Definition modify (f : Session -> Session) : M unit :=
  fun w => (Returned tt, {| sess := f (sess w); trace := trace w |}).

Definition get : M Session := fun w => (Returned (sess w), w).

Fixpoint forM_ {A} (l : list A) (f : A -> M unit) : M unit :=
  match l with
  | [] => ret tt
  | x :: l' => f x ;; forM_ l' f
  end.

(** ** Field stores and primitive calls *)

Definition with_serverAddr (a : string) (s : Session) : Session :=
  {| clientConn := clientConn s; serverAddr := a; serverConn := serverConn s;
     serverMu := serverMu s; latency := latency s; once := once s;
     transferring := transferring s |}.

Definition with_serverConn (c : option Conn) (s : Session) : Session :=
  {| clientConn := clientConn s; serverAddr := serverAddr s; serverConn := c;
     serverMu := serverMu s; latency := latency s; once := once s;
     transferring := transferring s |}.

Definition with_serverMu (m : RWMutex) (s : Session) : Session :=
  {| clientConn := clientConn s; serverAddr := serverAddr s;
     serverConn := serverConn s; serverMu := m; latency := latency s;
     once := once s; transferring := transferring s |}.

Definition with_once (b : bool) (s : Session) : Session :=
  {| clientConn := clientConn s; serverAddr := serverAddr s;
     serverConn := serverConn s; serverMu := serverMu s; latency := latency s;
     once := b; transferring := transferring s |}.

(** The client connection once [StartGame] has been called on it: what its
    [GameData()] returns from then on is the start state it was given. *)
Definition with_clientGameData (gd : GameData) (s : Session) : Session :=
  {| clientConn := {| RemoteAddr := RemoteAddr (clientConn s);
                      clientIdentity := clientIdentity (clientConn s);
                      clientGameData := gd |};
     serverAddr := serverAddr s; serverConn := serverConn s;
     serverMu := serverMu s; latency := latency s; once := once s;
     transferring := transferring s |}.

Definition with_transferring (b : bool) (s : Session) : Session :=
  {| clientConn := clientConn s; serverAddr := serverAddr s;
     serverConn := serverConn s; serverMu := serverMu s; latency := latency s;
     once := once s; transferring := b |}.

Definition WritePacket (pk : Packet) : M unit := emit (EvWritePacket pk).

Definition Errorf (msg : string) : M unit := emit (EvLog LvlError msg).
Definition Infof (msg : string) : M unit := emit (EvLog LvlInfo msg).
Definition Debugf (msg : string) : M unit := emit (EvLog LvlDebug msg).

Definition setServerAddr (a : string) : M unit :=
  modify (with_serverAddr a) ;; emit (EvSetServerAddr a).

Definition setServerConn (c : option Conn) : M unit :=
  modify (with_serverConn c) ;; emit (EvSetServerConn c).

(** The mutex once a writer has announced itself and waits. *)
Definition with_waiting_writer (s : Session) : Session :=
  with_serverMu {| writer := writer (serverMu s);
                   readers := readers (serverMu s);
                   waiting := true |} s.

(** [serverMu.Lock()]: waits while a writer or a reader holds the mutex, and
    from the moment it waits no new reader gets in. *)
Definition Lock : M unit :=
  fun w =>
    if rw_free (serverMu (sess w))
    then modify (with_serverMu
                   {| writer := true; readers := 0; waiting := false |}) w
    else (Blocked, {| sess := with_waiting_writer (sess w);
                      trace := trace w |}).

Definition Unlock : M unit :=
  modify (fun s =>
            with_serverMu
              {| writer := false; readers := readers (serverMu s);
                 waiting := waiting (serverMu s) |} s).

(** [transferring.CompareAndSwap(false, true)] and [transferring.Store]. *)
Definition CompareAndSwap_false_true : M bool :=
  fun w =>
    if transferring (sess w) then (Returned false, w)
    else match modify (with_transferring true) w with
         | (_, w') => (Returned true, w')
         end.

Definition Store (b : bool) : M unit := modify (with_transferring b).

(** [defer d] around a body: [d] runs when the body returns or panics. *)
Definition defer {A} (d : M unit) (body : M A) : M A :=
  fun w =>
    match body w with
    | (r, w') => (r, snd (d w'))
    end.

Definition ErrAlreadyTransferring : error := "already transferring".
Definition nil_dereference : string :=
  "invalid memory address or nil pointer dereference".

(** ** The operations of session.go *)

Section SessionOps.

(** [emptyChunk], defined elsewhere in the session package: the payload of
    an empty chunk for a dimension. *)
Variable emptyChunk : Z -> list Byte.byte.

Definition sendMetadata (noAI : bool) : M unit :=
  s <- get ;;
  let metadata := NewEntityMetadata in
  let metadata :=
    if noAI then SetFlag EntityDataFlagNoAI metadata else metadata in
  let metadata := SetFlag EntityDataFlagBreathing metadata in
  let metadata := SetFlag EntityDataFlagHasGravity metadata in
  WritePacket
    (packet.SetActorData (EntityRuntimeID (clientGameData (clientConn s)))
                         metadata).

Definition Dial (net : Dialer) (addr : string) : M (error + Conn) :=
  s <- get ;;
  emit (EvDial (RemoteAddr (clientConn s)) (clientIdentity (clientConn s))
               addr) ;;
  ret (net addr).

(** The function handed to [once.Do]. *)
Definition close_body : M unit :=
  emit EvClientClose ;;
  s <- get ;;
  match serverConn s with
  | Some c => emit (EvServerClose c)
  | None => ret tt
  end ;;
  let identity := clientIdentity (clientConn s) in
  emit (EvRemoveSession (XUID identity)) ;;
  Infof ("Closed session for " ++ DisplayName identity)%string.

(** [once.Do] runs the function for the first caller; every other caller
    waits until it is over and returns without running it.  [once] records
    that the function ran. *)
Definition Close : M unit :=
  s <- get ;;
  if once s then ret tt
  else close_body ;; modify (with_once true).

Definition Disconnect (message : string) : M unit :=
  WritePacket (packet.Disconnect message) ;;
  Close.

(** Lines 99-168 of [Transfer]: what runs while the write lock is held. *)
Definition transfer_body (net : Dialer) (addr : string) : M (option error) :=
  sendMetadata true ;;
  r <- Dial net addr ;;
  match r with
  | inl err =>
      sendMetadata false ;;
      Errorf ("Failed to dial server: " ++ err)%string ;;
      ret (Some err)
  | inr conn =>
      let serverGameData := connGameData conn in
      emit (EvAnimationPlay serverGameData) ;;
      let chunk := emptyChunk (Dimension serverGameData) in
      let pos := PlayerPosition serverGameData in
      let chunkX := Int32.shr (Int32.of_float32 (vecX pos)) 4 in
      let chunkZ := Int32.shr (Int32.of_float32 (vecZ pos)) 4 in
      forM_ (Int32.range (Int32.sub chunkX 4) (Int32.add chunkX 4))
            (fun x =>
               forM_ (Int32.range (Int32.sub chunkZ 4) (Int32.add chunkZ 4))
                     (fun z =>
                        WritePacket
                          (packet.LevelChunk packet.DimensionNether (x, z) 1
                                             chunk))) ;;
      emit (EvTracker clearEffects) ;;
      emit (EvTracker clearEntities) ;;
      emit (EvTracker clearBossBars) ;;
      emit (EvTracker clearPlayers) ;;
      emit (EvTracker clearScoreboards) ;;
      WritePacket (packet.MovePlayer (EntityRuntimeID serverGameData)
                              (PlayerPosition serverGameData)
                              (Pitch serverGameData) (Yaw serverGameData)
                              packet.MoveModeReset) ;;
      WritePacket (packet.LevelEvent packet.LevelEventStopRaining 10000) ;;
      WritePacket (packet.LevelEvent packet.LevelEventStopThunderstorm 0) ;;
      WritePacket (packet.SetDifficulty
                     (Int32.to_uint32 (Difficulty serverGameData))) ;;
      WritePacket (packet.SetPlayerGameType (PlayerGameMode serverGameData)) ;;
      WritePacket (packet.GameRulesChanged (GameRules serverGameData)) ;;
      emit (EvAnimationClear serverGameData) ;;
      s <- get ;;
      match serverConn s with
      | Some old => emit (EvServerClose old)
      | None => panic nil_dereference
      end ;;
      setServerAddr addr ;;
      setServerConn (Some conn) ;;
      forM_ (ReadDeferred conn) WritePacket ;;
      Debugf ("Transferred session for "
                ++ DisplayName (clientIdentity (clientConn s))
                ++ " to " ++ addr)%string ;;
      ret None
  end.

Definition Transfer (net : Dialer) (addr : string) : M (option error) :=
  swapped <- CompareAndSwap_false_true ;;
  if negb swapped then ret (Some ErrAlreadyTransferring)
  else
    Lock ;;
    defer (Unlock ;; Store false) (transfer_body net addr).

(** The chunk packets of lines 110-123, in the order the two loops write
    them. *)
Definition chunk_flood (serverGameData : GameData) : list Packet :=
  let chunk := emptyChunk (Dimension serverGameData) in
  let pos := PlayerPosition serverGameData in
  let chunkX := Int32.shr (Int32.of_float32 (vecX pos)) 4 in
  let chunkZ := Int32.shr (Int32.of_float32 (vecZ pos)) 4 in
  flat_map
    (fun x =>
       map (fun z => packet.LevelChunk packet.DimensionNether (x, z) 1 chunk)
           (Int32.range (Int32.sub chunkZ 4) (Int32.add chunkZ 4)))
    (Int32.range (Int32.sub chunkX 4) (Int32.add chunkX 4)).

(** [clientConn.StartGame(data)]: the connection takes [data] as its game
    data, relays it to the client and reports how that went; [startGame] is
    the result of the relay for a start state. *)
Definition StartGame (startGame : GameData -> option error) (data : GameData)
  : M (option error) :=
  modify (with_clientGameData data) ;;
  emit (EvStartGame data) ;;
  ret (startGame data).

(** The goroutine spawned by [NewSession] (lines 47-74). *)
Definition startup (net : Dialer) (startGame : GameData -> option error)
           (addr : string) (latencyInterval : Z) : M unit :=
  r <- Dial net addr ;;
  setServerAddr addr ;;
  setServerConn (match r with inr c => Some c | inl _ => None end) ;;
  match r with
  | inl err =>
      Close ;;
      Errorf ("Failed to dial server: " ++ err)%string
  | inr conn =>
      e <- StartGame startGame (connGameData conn) ;;
      match e with
      | Some err =>
          Close ;;
          Errorf ("Failed to start game timeout: " ++ err)%string
      | None =>
          sendMetadata true ;;
          forM_ (ReadDeferred conn) WritePacket ;;
          emit (EvGo handleIncoming) ;;
          emit (EvGo handleOutgoing) ;;
          emit (EvGo (handleLatency latencyInterval)) ;;
          s <- get ;;
          emit (EvAddSession (XUID (clientIdentity (clientConn s)))) ;;
          Infof ("Successfully started session for "
                   ++ DisplayName (clientIdentity (clientConn s)))%string
      end
  end.

(** What [NewSession] hands back: the session, the named result [err], and
    the goroutine it spawned. *)
Record NewSessionResult := {
  newSession : Session;
  newErr : option error;
  newGoroutine : Dialer -> (GameData -> option error) -> M unit
}.

Definition NewSession (clientConn : ClientConn) (addr : string)
           (latencyInterval : Z) : NewSessionResult :=
  let s := {| clientConn := clientConn;
              serverAddr := "";
              serverConn := None;
              serverMu := {| writer := false; readers := 0;
                             waiting := false |};
              latency := 0;
              once := false;
              transferring := false |} in
  {| newSession := s;
     newErr := None;
     newGoroutine := fun net startGame =>
                       startup net startGame addr latencyInterval |}.

End SessionOps.

(** ** The trace each path of [Transfer] is expected to add *)

Definition suppress_metadata (s : Session) : event :=
  EvWritePacket
    (packet.SetActorData (EntityRuntimeID (clientGameData (clientConn s)))
       [EntityDataFlagNoAI; EntityDataFlagBreathing; EntityDataFlagHasGravity]).

Definition restore_metadata (s : Session) : event :=
  EvWritePacket
    (packet.SetActorData (EntityRuntimeID (clientGameData (clientConn s)))
       [EntityDataFlagBreathing; EntityDataFlagHasGravity]).

Definition dial_event (s : Session) (addr : string) : event :=
  EvDial (RemoteAddr (clientConn s)) (clientIdentity (clientConn s)) addr.

Definition tracker_clears : list event :=
  [EvTracker clearEffects; EvTracker clearEntities; EvTracker clearBossBars;
   EvTracker clearPlayers; EvTracker clearScoreboards].

Definition world_reset (gd : GameData) : list event :=
  [EvWritePacket (packet.MovePlayer (EntityRuntimeID gd) (PlayerPosition gd)
                    (Pitch gd) (Yaw gd) packet.MoveModeReset);
   EvWritePacket (packet.LevelEvent packet.LevelEventStopRaining 10000);
   EvWritePacket (packet.LevelEvent packet.LevelEventStopThunderstorm 0);
   EvWritePacket (packet.SetDifficulty (Int32.to_uint32 (Difficulty gd)));
   EvWritePacket (packet.SetPlayerGameType (PlayerGameMode gd));
   EvWritePacket (packet.GameRulesChanged (GameRules gd))].

Definition transfer_log (s : Session) (addr : string) : event :=
  EvLog LvlDebug
    ("Transferred session for " ++ DisplayName (clientIdentity (clientConn s))
       ++ " to " ++ addr)%string.

(** The order of section 4.2, steps 3 to 13. *)
Definition transfer_success_trace (emptyChunk : Z -> list Byte.byte)
           (s : Session) (addr : string) (conn old : Conn) : list event :=
  [suppress_metadata s; dial_event s addr;
   EvAnimationPlay (connGameData conn)]
    ++ map EvWritePacket (chunk_flood emptyChunk (connGameData conn))
    ++ tracker_clears
    ++ world_reset (connGameData conn)
    ++ [EvAnimationClear (connGameData conn); EvServerClose old;
        EvSetServerAddr addr; EvSetServerConn (Some conn)]
    ++ map EvWritePacket (ReadDeferred conn)
    ++ [transfer_log s addr].

Definition transfer_failure_trace (s : Session) (addr : string) (err : error)
  : list event :=
  [suppress_metadata s; dial_event s addr; restore_metadata s;
   EvLog LvlError ("Failed to dial server: " ++ err)%string].

(** What is emitted before the nil dereference of line 159. *)
Definition transfer_panic_trace (emptyChunk : Z -> list Byte.byte)
           (s : Session) (addr : string) (conn : Conn) : list event :=
  [suppress_metadata s; dial_event s addr;
   EvAnimationPlay (connGameData conn)]
    ++ map EvWritePacket (chunk_flood emptyChunk (connGameData conn))
    ++ tracker_clears
    ++ world_reset (connGameData conn)
    ++ [EvAnimationClear (connGameData conn)].

(** The three ways the body of [Transfer] can end, by the dial's result and
    the backend field. *)
Definition transfer_body_spec (emptyChunk : Z -> list Byte.byte)
           (net : Dialer) (addr : string) (w : World)
  : Outcome (option error) * World :=
  match net addr with
  | inl err =>
      (Returned (Some err),
       {| sess := sess w;
          trace := trace w ++ transfer_failure_trace (sess w) addr err |})
  | inr conn =>
      match serverConn (sess w) with
      | Some old =>
          (Returned None,
           {| sess := with_serverConn (Some conn)
                        (with_serverAddr addr (sess w));
              trace := trace w
                         ++ transfer_success_trace emptyChunk (sess w) addr
                              conn old |})
      | None =>
          (Panicked nil_dereference,
           {| sess := sess w;
              trace := trace w
                         ++ transfer_panic_trace emptyChunk (sess w) addr
                              conn |})
      end
  end.

(** The session once the startup goroutine has dialled [conn] at [addr],
    stored both and called [StartGame] with the backend's start state. *)
Definition started_on (conn : Conn) (addr : string) (s : Session) : Session :=
  with_clientGameData (connGameData conn)
    (with_serverConn (Some conn) (with_serverAddr addr s)).

(** What the body handed to [once.Do] adds to the trace. *)
Definition close_trace (s : Session) : list event :=
  [EvClientClose]
    ++ match serverConn s with
       | Some c => [EvServerClose c]
       | None => []
       end
    ++ [EvRemoveSession (XUID (clientIdentity (clientConn s)));
        EvLog LvlInfo
          ("Closed session for "
             ++ DisplayName (clientIdentity (clientConn s)))%string].

(** ** Chunk geometry *)

(** The chunk column that contains a block coordinate: sixteen blocks per
    chunk, rounding down. *)
Definition chunk_of (coord : Q) : Z := Qfloor (coord / 16)%Q.

(** The positions of the square of the given radius around a chunk, row by
    row. *)
Definition chunk_square (cx cz r : Z) : list (Z * Z) :=
  list_prod (Int32.range (cx - r) (cx + r)) (Int32.range (cz - r) (cz + r)).

Definition flood_centre (gd : GameData) : Z * Z :=
  (Int32.shr (Int32.of_float32 (vecX (PlayerPosition gd))) 4,
   Int32.shr (Int32.of_float32 (vecZ (PlayerPosition gd))) 4).

Definition chunk_dimension (pk : Packet) : option Z :=
  match pk with
  | packet.LevelChunk d _ _ _ => Some d
  | _ => None
  end.

(** ** Sequences of calls on one session *)

(** Successive [Transfer] calls, each with the network as it is at that
    moment; a caller that recovers from a panic goes on calling. *)
Fixpoint run_transfers (emptyChunk : Z -> list Byte.byte)
         (calls : list (Dialer * string)) (w : World)
  : list (Outcome (option error)) * World :=
  match calls with
  | [] => ([], w)
  | (net, addr) :: rest =>
      let (o, w') := Transfer emptyChunk net addr w in
      let (os, w'') := run_transfers emptyChunk rest w' in
      (o :: os, w'')
  end.

Definition succeeded (o : Outcome (option error)) : bool :=
  match o with
  | Returned None => true
  | _ => false
  end.

(** The address of the most recent successful call, or [init]. *)
Fixpoint last_successful (init : string) (calls : list (Dialer * string))
         (outs : list (Outcome (option error))) : string :=
  match calls, outs with
  | (_, addr) :: calls', o :: outs' =>
      last_successful (if succeeded o then addr else init) calls' outs'
  | _, _ => init
  end.

(** The ways a caller reaches [Close]. *)
Inductive closer :=
| ViaClose
| ViaDisconnect (message : string).

Definition run_closer (c : closer) : M unit :=
  match c with
  | ViaClose => Close
  | ViaDisconnect message => Disconnect message
  end.

Definition disconnect_notice (c : closer) : list event :=
  match c with
  | ViaClose => []
  | ViaDisconnect message => [EvWritePacket (packet.Disconnect message)]
  end.

(** The world in which the goroutine of a new session starts. *)
Definition fresh_world (r : NewSessionResult) : World :=
  {| sess := newSession r; trace := [] |}.

Definition startup_fails (net : Dialer) (startGame : GameData -> option error)
           (addr : string) : bool :=
  match net addr with
  | inl _ => true
  | inr conn =>
      match startGame (connGameData conn) with
      | Some _ => true
      | None => false
      end
  end.

(** ** Concurrent [Transfer] calls

    Each call is a thread at one of the points between which other
    goroutines can run: before the compare-and-swap, waiting for the write
    lock, holding it with the body still to run, and the two steps of the
    deferred function. *)

Inductive pc :=
| AtCall (net : Dialer) (addr : string)
| AtLock (net : Dialer) (addr : string)
| AtBody (net : Dialer) (addr : string)
| AtUnlock (r : Outcome (option error))
| AtStore (r : Outcome (option error))
| Done (r : Outcome (option error)).

(** Past the flag check and not yet back. *)
Definition in_flight (t : pc) : bool :=
  match t with
  | AtLock _ _ | AtBody _ _ | AtUnlock _ | AtStore _ => true
  | AtCall _ _ | Done _ => false
  end.

Definition holds_lock (t : pc) : bool :=
  match t with
  | AtBody _ _ | AtUnlock _ => true
  | _ => false
  end.

(** One step of one call; [None] when the call waits or has returned. *)
Definition thread_step (emptyChunk : Z -> list Byte.byte) (t : pc) (w : World)
  : option (pc * World) :=
  match t with
  | AtCall net addr =>
      match CompareAndSwap_false_true w with
      | (Returned true, w') => Some (AtLock net addr, w')
      | (_, w') => Some (Done (Returned (Some ErrAlreadyTransferring)), w')
      end
  | AtLock net addr =>
      match Lock w with
      | (Returned _, w') => Some (AtBody net addr, w')
      | _ => None
      end
  | AtBody net addr =>
      let (r, w') := transfer_body emptyChunk net addr w in
      Some (AtUnlock r, w')
  | AtUnlock r => Some (AtStore r, snd (Unlock w))
  | AtStore r => Some (Done r, snd (Store false w))
  | Done _ => None
  end.

(** [serverMu.RLock()] and [RUnlock()] of the pumps and of [Server]. *)
Definition RLock (w : World) : World :=
  snd (modify (fun s => with_serverMu
                          {| writer := false;
                             readers := S (readers (serverMu s));
                             waiting := waiting (serverMu s) |} s) w).

Definition RUnlock (w : World) : World :=
  snd (modify (fun s => with_serverMu
                          {| writer := writer (serverMu s);
                             readers := pred (readers (serverMu s));
                             waiting := waiting (serverMu s) |} s) w).

Definition config := (World * list pc)%type.

Inductive step (emptyChunk : Z -> list Byte.byte) : config -> config -> Prop :=
| step_thread w w' t t' before after :
    thread_step emptyChunk t w = Some (t', w') ->
    step emptyChunk (w, before ++ t :: after) (w', before ++ t' :: after)
| step_call w ts net addr :
    step emptyChunk (w, ts) (w, ts ++ [AtCall net addr])
| step_rlock w ts :
    writer (serverMu (sess w)) = false ->
    step emptyChunk (w, ts) (RLock w, ts)
| step_runlock w ts :
    (0 < readers (serverMu (sess w)))%nat ->
    step emptyChunk (w, ts) (RUnlock w, ts).

Inductive steps (emptyChunk : Z -> list Byte.byte) : config -> config -> Prop :=
| steps_refl c : steps emptyChunk c c
| steps_next c1 c2 c3 :
    steps emptyChunk c1 c2 -> step emptyChunk c2 c3 -> steps emptyChunk c1 c3.

(** A session on which no transfer is under way and nobody holds the lock. *)
Definition idle (s : Session) : bool :=
  negb (transferring s) && rw_free (serverMu s).

Definition initial (c : config) : Prop :=
  idle (sess (fst c)) = true /\ countb in_flight (snd c) = 0%nat.

Definition b2n (b : bool) : nat := if b then 1%nat else 0%nat.

(** The flag counts the calls in flight, the writer bit the calls that hold
    the lock, and a writer excludes readers.  A call at [AtLock] takes the
    lock in one step when it is free and is not recorded as waiting before
    that, so readers get in while it waits: this only adds interleavings to
    those of the program. *)
Definition flag_invariant (c : config) : Prop :=
  countb in_flight (snd c) = b2n (transferring (sess (fst c)))
  /\ countb holds_lock (snd c) = b2n (writer (serverMu (sess (fst c))))
  /\ (writer (serverMu (sess (fst c))) = true ->
      readers (serverMu (sess (fst c))) = 0%nat)
  /\ waiting (serverMu (sess (fst c))) = false.

(** A single call run to its end without interference. *)
Fixpoint run_alone (emptyChunk : Z -> list Byte.byte) (fuel : nat) (t : pc)
         (w : World) : pc * World :=
  match fuel with
  | O => (t, w)
  | S fuel' =>
      match thread_step emptyChunk t w with
      | Some (t', w') => run_alone emptyChunk fuel' t' w'
      | None => (t, w)
      end
  end.


(** ** Sample data for the worked instances *)

Module Sample.

Definition ec (dimension : Z) : list Byte.byte := [].

Definition overworld : GameData :=
  {| EntityRuntimeID := 7;
     PlayerPosition := {| vecX := 40; vecY := 64; vecZ := 100 |};
     Pitch := 0; Yaw := 90;
     Dimension := 0; Difficulty := 2; PlayerGameMode := 0;
     GameRules := [ {| ruleName := "showcoordinates";
                       ruleValue := RuleBool true |} ] |}.

(** A start state in the Nether, half a block west of the origin. *)
Definition nether : GameData :=
  {| EntityRuntimeID := 12;
     PlayerPosition := {| vecX := - (1 # 2); vecY := 70; vecZ := 33 |};
     Pitch := 0; Yaw := 0;
     Dimension := packet.DimensionNether; Difficulty := 1;
     PlayerGameMode := 1; GameRules := [] |}.

Definition client : ClientConn :=
  {| RemoteAddr := "203.0.113.9:19132";
     clientIdentity := {| XUID := "2535416"; DisplayName := "Steve" |};
     clientGameData := overworld |}.

Definition connA : Conn :=
  {| connId := 1; connGameData := overworld;
     ReadDeferred := [packet.Relayed 11 []] |}.

Definition connB : Conn :=
  {| connId := 2; connGameData := nether;
     ReadDeferred := [packet.Relayed 58 []; packet.Relayed 9 []] |}.

Definition net : Dialer :=
  fun addr =>
    if String.eqb addr "A" then inr connA
    else if String.eqb addr "B" then inr connB
    else inl "connection refused".

Definition unreachable : Dialer := fun _ => inl "connection refused".

Definition accept (gd : GameData) : option error := None.
Definition refuse (gd : GameData) : option error := Some "timeout".

(** A freshly constructed session and the same session once started on
    backend A. *)
Definition created : World := fresh_world (NewSession client "A" 50).

Definition started : World :=
  snd (newGoroutine (NewSession client "A" 50) net accept created).

(** The started session while another [Transfer] holds the flag and the
    lock. *)
Definition busy : World :=
  snd (Lock (snd (CompareAndSwap_false_true started))).

End Sample.

(** A backend whose start state is in the Nether, at a position with
    positive coordinates. *)
Module NetherSample.

Definition hub : GameData :=
  {| EntityRuntimeID := 3;
     PlayerPosition := {| vecX := 17 # 2; vecY := 70; vecZ := 33 |};
     Pitch := 0; Yaw := 0;
     Dimension := packet.DimensionNether; Difficulty := 1;
     PlayerGameMode := 0; GameRules := [] |}.

Definition conn : Conn :=
  {| connId := 3; connGameData := hub; ReadDeferred := [] |}.

Definition net : Dialer :=
  fun addr => if String.eqb addr "N" then inr conn else Sample.net addr.

End NetherSample.

(** ** The remaining public calls *)

(** [Server] (lines 186-190): the backend connection, read under the read
    lock.  [RLock] waits while a writer holds the lock and also while a
    writer waits for it. *)
Definition Server : M (option Conn) :=
  fun w =>
    if writer (serverMu (sess w)) || waiting (serverMu (sess w))
    then (Blocked, w)
    else defer (fun w' => (Returned tt, RUnlock w'))
               (s <- get ;; ret (serverConn s))
               (RLock w).

(** The calls a user of a session can make, and a sequence of them made one
    after the other, whatever each one answers. *)
Inductive call :=
| CallTransfer (net : Dialer) (addr : string)
| CallClose
| CallDisconnect (message : string)
| CallServer.

Definition run_call (emptyChunk : Z -> list Byte.byte) (c : call) (w : World)
  : World :=
  match c with
  | CallTransfer net addr => snd (Transfer emptyChunk net addr w)
  | CallClose => snd (Close w)
  | CallDisconnect message => snd (Disconnect message w)
  | CallServer => snd (Server w)
  end.

Definition run_calls (emptyChunk : Z -> list Byte.byte) (cs : list call)
           (w : World) : World :=
  fold_left (fun w' c => run_call emptyChunk c w') cs w.

(** ** Observations on traces *)

(** The backend connections a trace closes, and the ones it publishes in
    the session's backend field, in the order of the events. *)
Definition closed_conns (tr : list event) : list Conn :=
  flat_map (fun e => match e with EvServerClose c => [c] | _ => [] end) tr.

Definition published_conns (tr : list event) : list Conn :=
  flat_map (fun e => match e with
                     | EvSetServerConn (Some c) => [c]
                     | _ => []
                     end) tr.

Definition is_set_actor_data (e : event) : bool :=
  match e with
  | EvWritePacket (packet.SetActorData _ _) => true
  | _ => false
  end.

(** A dial made in the name of a client connection. *)
Definition dial_from (cc : ClientConn) (e : event) : Prop :=
  match e with
  | EvDial origin identity _ =>
      origin = RemoteAddr cc /\ identity = clientIdentity cc
  | _ => True
  end.

(** The connection of the most recent successful [Transfer], or [init]. *)
Fixpoint last_backend (init : option Conn) (calls : list (Dialer * string))
         (outs : list (Outcome (option error))) : option Conn :=
  match calls, outs with
  | (net, addr) :: calls', o :: outs' =>
      last_backend
        (if succeeded o
         then match net addr with inr c => Some c | inl _ => init end
         else init)
        calls' outs'
  | _, _ => init
  end.

(** A call that has not returned yet. *)
Definition pending (t : pc) : bool :=
  match t with
  | Done _ => false
  | _ => true
  end.

(** What every public call keeps true of a session made for the client
    connection [cc]: the client connection stays, neither flag nor lock is
    left held, the teardown has run as often as the close guard says, the
    session was registered at most once, and every dial was made in the
    client's name. *)
Definition consistent (cc : ClientConn) (w : World) : Prop :=
  clientConn (sess w) = cc
  /\ idle (sess w) = true
  /\ countb is_client_close (trace w) = b2n (once (sess w))
  /\ countb is_remove_session (trace w) = b2n (once (sess w))
  /\ (countb is_add_session (trace w) <= 1)%nat
  /\ Forall (dial_from cc) (trace w).

(** * Properties *)

(** ** Bookkeeping lemmas *)

Lemma forM_WritePacket (l : list Packet) (w : World) :
  forM_ l WritePacket w
  = (Returned tt,
     {| sess := sess w; trace := trace w ++ map EvWritePacket l |}).
Proof.
  revert w. induction l as [|pk l IH]; intros [s tr]; simpl.
  - unfold ret. now rewrite app_nil_r.
  - unfold bind, WritePacket, emit at 1. simpl.
    rewrite IH. simpl. now rewrite <- app_assoc.
Qed.

Lemma bind_forM_WritePacket {B} (l : list Packet) (k : unit -> M B)
      (w : World) :
  bind (forM_ l WritePacket) k w
  = k tt {| sess := sess w; trace := trace w ++ map EvWritePacket l |}.
Proof. unfold bind. now rewrite forM_WritePacket. Qed.

Lemma forM_WritePacket_map {A} (f : A -> Packet) (l : list A) (w : World) :
  forM_ l (fun x => WritePacket (f x)) w
  = (Returned tt,
     {| sess := sess w; trace := trace w ++ map EvWritePacket (map f l) |}).
Proof.
  revert w. induction l as [|x l IH]; intros [s tr]; simpl.
  - unfold ret. now rewrite app_nil_r.
  - unfold bind, WritePacket, emit at 1. simpl.
    rewrite IH. simpl. now rewrite <- app_assoc.
Qed.

(** The two nested loops of the chunk flood write the packets of their
    bodies, row after row. *)
Lemma bind_flood_loops {B} (xs zs : list Z) (d n : Z) (chunk : list Byte.byte)
      (k : unit -> M B) (w : World) :
  bind (forM_ xs
          (fun x =>
             forM_ zs
               (fun z => WritePacket (packet.LevelChunk d (x, z) n chunk))))
       k w
  = k tt {| sess := sess w;
            trace := trace w
                       ++ map EvWritePacket
                            (flat_map
                               (fun x =>
                                  map (fun z =>
                                         packet.LevelChunk d (x, z) n chunk)
                                      zs)
                               xs) |}.
Proof.
  unfold bind at 1.
  assert (Hloops :
            forall w0,
              forM_ xs
                (fun x =>
                   forM_ zs
                     (fun z =>
                        WritePacket (packet.LevelChunk d (x, z) n chunk))) w0
              = (Returned tt,
                 {| sess := sess w0;
                    trace := trace w0
                               ++ map EvWritePacket
                                    (flat_map
                                       (fun x =>
                                          map (fun z =>
                                                 packet.LevelChunk d (x, z) n
                                                                   chunk)
                                              zs)
                                       xs) |})).
  { induction xs as [|x xs IH]; intros [s tr]; cbn [forM_ flat_map].
    - unfold ret. cbn. now rewrite app_nil_r.
    - unfold bind at 1.
      rewrite (forM_WritePacket_map
                 (fun z => packet.LevelChunk d (x, z) n chunk)).
      rewrite IH. cbn [sess trace]. now rewrite map_app, app_assoc. }
  now rewrite Hloops.
Qed.

(** Symbolic execution of straight-line monadic code. *)
Ltac run :=
  cbn [bind get emit modify ret panic WritePacket Errorf Infof Debugf
       setServerAddr setServerConn sess trace fst snd].

Ltac norm_trace := repeat rewrite <- app_assoc; cbn [app].

Section TransferBody.

Variable emptyChunk : Z -> list Byte.byte.

Lemma transfer_body_success net addr conn old s tr :
  net addr = inr conn ->
  serverConn s = Some old ->
  transfer_body emptyChunk net addr {| sess := s; trace := tr |}
  = (Returned None,
     {| sess := with_serverConn (Some conn) (with_serverAddr addr s);
        trace := tr ++ transfer_success_trace emptyChunk s addr conn old |}).
Proof.
  intros Hnet Hold.
  unfold transfer_body, sendMetadata, Dial. run.
  rewrite Hnet. run.
  rewrite bind_flood_loops. fold (chunk_flood emptyChunk (connGameData conn)).
  run.
  rewrite Hold. run.
  rewrite bind_forM_WritePacket. run.
  unfold transfer_success_trace, tracker_clears, world_reset.
  norm_trace. reflexivity.
Qed.

Lemma transfer_body_nil net addr conn s tr :
  net addr = inr conn ->
  serverConn s = None ->
  transfer_body emptyChunk net addr {| sess := s; trace := tr |}
  = (Panicked nil_dereference,
     {| sess := s;
        trace := tr ++ transfer_panic_trace emptyChunk s addr conn |}).
Proof.
  intros Hnet Hnil.
  unfold transfer_body, sendMetadata, Dial. run.
  rewrite Hnet. run.
  rewrite bind_flood_loops. fold (chunk_flood emptyChunk (connGameData conn)).
  run.
  rewrite Hnil. run.
  unfold transfer_panic_trace, tracker_clears, world_reset.
  norm_trace. reflexivity.
Qed.

Lemma transfer_body_failure net addr err s tr :
  net addr = inl err ->
  transfer_body emptyChunk net addr {| sess := s; trace := tr |}
  = (Returned (Some err),
     {| sess := s; trace := tr ++ transfer_failure_trace s addr err |}).
Proof.
  intros Hnet.
  unfold transfer_body, sendMetadata, Dial. run.
  rewrite Hnet. run.
  unfold transfer_failure_trace. norm_trace. reflexivity.
Qed.

Lemma transfer_body_eq net addr w :
  transfer_body emptyChunk net addr w
  = transfer_body_spec emptyChunk net addr w.
Proof.
  destruct w as [s tr]. unfold transfer_body_spec. cbn [sess trace].
  destruct (net addr) as [err|conn] eqn:Hnet.
  - now apply transfer_body_failure.
  - destruct (serverConn s) as [old|] eqn:Hold.
    + now apply transfer_body_success.
    + now apply transfer_body_nil.
Qed.

End TransferBody.

(** ** [Transfer] as a whole *)

Section TransferCall.

Variable emptyChunk : Z -> list Byte.byte.

Lemma Transfer_rejected net addr w :
  transferring (sess w) = true ->
  Transfer emptyChunk net addr w = (Returned (Some ErrAlreadyTransferring), w).
Proof.
  intros Hflag. unfold Transfer, bind, CompareAndSwap_false_true.
  now rewrite Hflag.
Qed.

Lemma Transfer_blocked net addr w :
  transferring (sess w) = false ->
  rw_free (serverMu (sess w)) = false ->
  Transfer emptyChunk net addr w
  = (Blocked,
     {| sess := with_waiting_writer (with_transferring true (sess w));
        trace := trace w |}).
Proof.
  intros Hflag Hmu. unfold Transfer, bind, CompareAndSwap_false_true.
  rewrite Hflag. cbn. unfold Lock. cbn. now rewrite Hmu.
Qed.

Lemma Transfer_idle net addr w :
  idle (sess w) = true ->
  Transfer emptyChunk net addr w = transfer_body_spec emptyChunk net addr w.
Proof.
  destruct w as [s tr]. unfold idle. cbn [sess].
  intros Hidle. apply andb_true_iff in Hidle as [Hflag Hmu].
  apply negb_true_iff in Hflag.
  unfold Transfer, bind, CompareAndSwap_false_true. cbn [sess].
  rewrite Hflag. cbn [modify negb]. unfold Lock. cbn [sess trace].
  replace (serverMu (with_transferring true s)) with (serverMu s)
    by reflexivity.
  rewrite Hmu. cbn [modify sess trace]. unfold defer.
  rewrite transfer_body_eq. unfold transfer_body_spec. cbn [sess trace].
  destruct s as [cc a c [wr rd wt] lat o tf].
  cbn in Hflag, Hmu. subst tf.
  unfold rw_free in Hmu. cbn in Hmu.
  apply andb_true_iff in Hmu as [Hmu Hwt].
  apply andb_true_iff in Hmu as [Hwr Hrd].
  apply negb_true_iff in Hwr, Hwt. apply Nat.eqb_eq in Hrd. subst wr rd wt.
  destruct (net addr) as [err|conn]; [reflexivity|].
  cbn [serverConn with_serverMu with_transferring].
  destruct c as [old|]; reflexivity.
Qed.

Lemma transfer_body_spec_idle net addr w :
  idle (sess w) = true ->
  idle (sess (snd (transfer_body_spec emptyChunk net addr w))) = true.
Proof.
  unfold transfer_body_spec. intros Hidle.
  destruct (net addr) as [err|conn]; [exact Hidle|].
  destruct (serverConn (sess w)) as [old|]; exact Hidle.
Qed.

(** The backend address a call leaves behind, for every state it can be
    made in. *)
Lemma Transfer_serverAddr net addr w :
  serverAddr (sess (snd (Transfer emptyChunk net addr w)))
  = if succeeded (fst (Transfer emptyChunk net addr w))
    then addr else serverAddr (sess w).
Proof.
  destruct (transferring (sess w)) eqn:Hflag.
  - now rewrite Transfer_rejected.
  - destruct (rw_free (serverMu (sess w))) eqn:Hmu.
    + rewrite Transfer_idle by (unfold idle; now rewrite Hflag, Hmu).
      unfold transfer_body_spec.
      destruct (net addr) as [err|conn]; [reflexivity|].
      destruct (serverConn (sess w)) as [old|]; reflexivity.
    + now rewrite Transfer_blocked.
Qed.

End TransferCall.

(** ** Counting events *)

Lemma countb_app {A} (p : A -> bool) (l1 l2 : list A) :
  countb p (l1 ++ l2) = (countb p l1 + countb p l2)%nat.
Proof. unfold countb. now rewrite filter_app, length_app. Qed.

Lemma countb_cons {A} (p : A -> bool) (x : A) (l : list A) :
  countb p (x :: l) = (b2n (p x) + countb p l)%nat.
Proof. unfold countb, b2n. simpl. now destruct (p x). Qed.

Lemma countb_writes (p : event -> bool) (l : list Packet) :
  (forall pk, p (EvWritePacket pk) = false) ->
  countb p (map EvWritePacket l) = 0%nat.
Proof.
  intros Hp. induction l as [|pk l IH]; [reflexivity|].
  cbn [map]. rewrite countb_cons, Hp, IH. reflexivity.
Qed.


(** ** C1 *)

(** C1.  When the dial inside [Transfer] fails (the call got past the flag
    check and took the lock, and the dialer answers with an error), the call
    returns that very error, the session is left exactly as it was (backend
    connection and address included), the trace grows by the suppressing
    metadata packet, the dial, the restoring metadata packet and the error
    log, in this order, and no tracker clear is among them. *)
Theorem Transfer_dial_failure_rolls_back
        (emptyChunk : Z -> list Byte.byte) (net : Dialer) (addr : string)
        (err : error) (w : World) :
  idle (sess w) = true ->
  net addr = inl err ->
  exists w',
    Transfer emptyChunk net addr w = (Returned (Some err), w')
    /\ sess w' = sess w
    /\ serverConn (sess w') = serverConn (sess w)
    /\ serverAddr (sess w') = serverAddr (sess w)
    /\ trace w'
       = trace w ++ [suppress_metadata (sess w); dial_event (sess w) addr;
                     restore_metadata (sess w);
                     EvLog LvlError ("Failed to dial server: " ++ err)%string]
    /\ countb is_tracker (trace w') = countb is_tracker (trace w)
    /\ countb is_server_close (trace w') = countb is_server_close (trace w).
Proof.
  intros Hidle Hnet.
  rewrite (Transfer_idle emptyChunk net addr w Hidle).
  unfold transfer_body_spec. rewrite Hnet.
  eexists. split; [reflexivity|]. cbn [sess trace].
  repeat split; rewrite countb_app; cbn; lia.
Qed.

Lemma Transfer_dial_failure_rolls_back_witness :
  exists w',
    Transfer Sample.ec Sample.net "C" Sample.started
    = (Returned (Some "connection refused"), w')
    /\ sess w' = sess Sample.started
    /\ serverConn (sess w') = Some Sample.connA
    /\ serverAddr (sess w') = "A".
Proof.
  destruct (Transfer_dial_failure_rolls_back
              Sample.ec Sample.net "C" "connection refused" Sample.started)
    as (w' & Hrun & Hsess & Hconn & Haddr & _).
  - reflexivity.
  - reflexivity.
  - exists w'. repeat split; assumption.
Defined.

(** ** C3 *)

Lemma Transfer_returns_nil (emptyChunk : Z -> list Byte.byte) net addr w w' :
  Transfer emptyChunk net addr w = (Returned None, w') ->
  exists conn old,
    net addr = inr conn
    /\ serverConn (sess w) = Some old
    /\ sess w' = with_serverConn (Some conn) (with_serverAddr addr (sess w))
    /\ trace w'
       = trace w ++ transfer_success_trace emptyChunk (sess w) addr conn old.
Proof.
  intros Hrun.
  destruct (transferring (sess w)) eqn:Hflag.
  { rewrite Transfer_rejected in Hrun by assumption. discriminate. }
  destruct (rw_free (serverMu (sess w))) eqn:Hmu.
  2:{ rewrite Transfer_blocked in Hrun by assumption. discriminate. }
  rewrite Transfer_idle in Hrun by (unfold idle; now rewrite Hflag, Hmu).
  unfold transfer_body_spec in Hrun.
  destruct (net addr) as [err|conn]; [discriminate|].
  destruct (serverConn (sess w)) as [old|]; [|discriminate].
  injection Hrun as <-. exists conn, old. repeat split; reflexivity.
Qed.



(** ** C7 *)

Lemma run_transfers_serverAddr (emptyChunk : Z -> list Byte.byte) calls :
  forall w,
    serverAddr (sess (snd (run_transfers emptyChunk calls w)))
    = last_successful (serverAddr (sess w)) calls
        (fst (run_transfers emptyChunk calls w)).
Proof.
  induction calls as [|[net addr] rest IH]; intros w; [reflexivity|].
  cbn [run_transfers].
  pose proof (Transfer_serverAddr emptyChunk net addr w) as Hone.
  destruct (Transfer emptyChunk net addr w) as [o w1].
  specialize (IH w1).
  destruct (run_transfers emptyChunk rest w1) as [os w2].
  cbn [fst snd] in *. cbn [last_successful].
  rewrite IH, Hone. reflexivity.
Qed.

(** ** [Close] and the startup goroutine *)

Lemma Close_run s tr :
  Close {| sess := s; trace := tr |}
  = (Returned tt,
     {| sess := if once s then s else with_once true s;
        trace := tr ++ (if once s then [] else close_trace s) |}).
Proof.
  unfold Close, close_body, close_trace, Infof.
  destruct s as [cc a [c|] mu lat [|] tf];
    cbn [bind get emit modify ret sess trace once serverConn];
    norm_trace; rewrite ?app_nil_r; reflexivity.
Qed.

Lemma bind_Close {B} (k : unit -> M B) s tr :
  bind Close k {| sess := s; trace := tr |}
  = k tt {| sess := if once s then s else with_once true s;
            trace := tr ++ (if once s then [] else close_trace s) |}.
Proof. unfold bind at 1. now rewrite Close_run. Qed.

Lemma Close_after_close w :
  once (sess w) = true -> Close w = (Returned tt, w).
Proof.
  destruct w as [s tr]. cbn [sess]. intros Honce.
  rewrite Close_run, Honce, app_nil_r. reflexivity.
Qed.

Lemma startup_dial_failure net startGame addr latencyInterval err s tr :
  net addr = inl err ->
  once s = false ->
  startup net startGame addr latencyInterval {| sess := s; trace := tr |}
  = (Returned tt,
     {| sess := with_once true (with_serverConn None (with_serverAddr addr s));
        trace := tr ++ [dial_event s addr; EvSetServerAddr addr;
                        EvSetServerConn None]
                    ++ close_trace (with_serverConn None
                                      (with_serverAddr addr s))
                    ++ [EvLog LvlError
                          ("Failed to dial server: " ++ err)%string] |}).
Proof.
  intros Hnet Honce. unfold startup, Dial. run. rewrite Hnet. run.
  rewrite bind_Close. cbn [once with_serverConn with_serverAddr].
  rewrite Honce. unfold Errorf, emit. cbn [sess trace].
  norm_trace. reflexivity.
Qed.

Lemma startup_game_failure net startGame addr latencyInterval conn err s tr :
  net addr = inr conn ->
  startGame (connGameData conn) = Some err ->
  once s = false ->
  startup net startGame addr latencyInterval {| sess := s; trace := tr |}
  = (Returned tt,
     {| sess := with_once true (started_on conn addr s);
        trace := tr ++ [dial_event s addr; EvSetServerAddr addr;
                        EvSetServerConn (Some conn);
                        EvStartGame (connGameData conn)]
                    ++ close_trace (started_on conn addr s)
                    ++ [EvLog LvlError
                          ("Failed to start game timeout: " ++ err)%string] |}).
Proof.
  intros Hnet Hgame Honce. unfold startup, Dial, StartGame. run.
  rewrite Hnet. run. rewrite Hgame. rewrite bind_Close.
  fold (started_on conn addr s).
  replace (once (started_on conn addr s)) with (once s) by reflexivity.
  rewrite Honce. unfold Errorf, emit. cbn [sess trace].
  norm_trace. reflexivity.
Qed.

Lemma startup_success net startGame addr latencyInterval conn s tr :
  net addr = inr conn ->
  startGame (connGameData conn) = None ->
  startup net startGame addr latencyInterval {| sess := s; trace := tr |}
  = (Returned tt,
     {| sess := started_on conn addr s;
        trace := tr ++ [dial_event s addr; EvSetServerAddr addr;
                        EvSetServerConn (Some conn);
                        EvStartGame (connGameData conn);
                        suppress_metadata (started_on conn addr s)]
                    ++ map EvWritePacket (ReadDeferred conn)
                    ++ [EvGo handleIncoming; EvGo handleOutgoing;
                        EvGo (handleLatency latencyInterval);
                        EvAddSession (XUID (clientIdentity (clientConn s)));
                        EvLog LvlInfo
                          ("Successfully started session for "
                             ++ DisplayName (clientIdentity (clientConn s)))
                          %string] |}).
Proof.
  intros Hnet Hgame. unfold startup, Dial, StartGame, sendMetadata. run.
  rewrite Hnet. run. rewrite Hgame. run.
  rewrite bind_forM_WritePacket. run. unfold Infof, emit. cbn [sess trace].
  norm_trace. reflexivity.
Qed.

Lemma startup_serverAddr net startGame addr latencyInterval clientConn :
  let r := NewSession clientConn addr latencyInterval in
  serverAddr (sess (snd (newGoroutine r net startGame (fresh_world r))))
  = addr.
Proof.
  intros r. subst r. unfold NewSession, fresh_world.
  cbn [newGoroutine newSession].
  destruct (net addr) as [err|conn] eqn:Hnet.
  - erewrite startup_dial_failure by (try eassumption; reflexivity).
    reflexivity.
  - destruct (startGame (connGameData conn)) as [err|] eqn:Hgame.
    + erewrite startup_game_failure by (try eassumption; reflexivity).
      reflexivity.
    + erewrite startup_success by eassumption. reflexivity.
Qed.

(** C7.  Start a session for [addr0], let its goroutine finish (whatever the
    dial and the start-game relay answer) and make any sequence of
    [Transfer] calls, each against its own network.  The backend address of
    the session is then the address of the last call that returned nil, or
    [addr0] when no call did.  A single call sets the address to its
    argument when it returns nil and leaves it alone otherwise (an error, a
    panic or a wait). *)
Theorem serverAddr_is_last_successful_transfer
        (emptyChunk : Z -> list Byte.byte) (clientConn : ClientConn)
        (addr0 : string) (latencyInterval : Z) (net0 : Dialer)
        (startGame : GameData -> option error)
        (calls : list (Dialer * string)) :
  let r := NewSession clientConn addr0 latencyInterval in
  let w0 := snd (newGoroutine r net0 startGame (fresh_world r)) in
  let res := run_transfers emptyChunk calls w0 in
  serverAddr (sess w0) = addr0
  /\ serverAddr (sess (snd res)) = last_successful addr0 calls (fst res)
  /\ forall net addr w,
      serverAddr (sess (snd (Transfer emptyChunk net addr w)))
      = if succeeded (fst (Transfer emptyChunk net addr w))
        then addr else serverAddr (sess w).
Proof.
  intros r w0 res.
  pose proof (startup_serverAddr net0 startGame addr0 latencyInterval
                                 clientConn) as Hstart.
  split; [exact Hstart|]. split.
  - subst res. rewrite run_transfers_serverAddr. fold w0.
    subst w0 r. rewrite Hstart. reflexivity.
  - intros net addr w. apply Transfer_serverAddr.
Qed.

Lemma serverAddr_is_last_successful_transfer_witness :
  let w0 := Sample.started in
  let res :=
    run_transfers Sample.ec
      [(Sample.net, "B"); (Sample.unreachable, "A"); (Sample.net, "C")] w0 in
  serverAddr (sess w0) = "A"
  /\ fst res = [Returned None; Returned (Some "connection refused");
                Returned (Some "connection refused")]
  /\ serverAddr (sess (snd res)) = "B".
Proof.
  destruct (serverAddr_is_last_successful_transfer
              Sample.ec Sample.client "A" 50 Sample.net Sample.accept
              [(Sample.net, "B"); (Sample.unreachable, "A"); (Sample.net, "C")])
    as (Hinit & Hlast & _).
  split; [exact Hinit|]. split; [vm_compute; reflexivity|].
  etransitivity; [exact Hlast|]. vm_compute. reflexivity.
Defined.

(** ** C5 and C9: shutdown *)

Lemma closers_after_close (cs : list closer) :
  forall w,
    once (sess w) = true ->
    forM_ cs run_closer w
    = (Returned tt,
       {| sess := sess w; trace := trace w ++ flat_map disconnect_notice cs |}).
Proof.
  induction cs as [|c cs IH]; intros [s tr] Honce; cbn [sess] in Honce.
  - cbn. now rewrite app_nil_r.
  - cbn [forM_ flat_map]. unfold bind at 1.
    assert (Hc : run_closer c {| sess := s; trace := tr |}
                 = (Returned tt,
                    {| sess := s; trace := tr ++ disconnect_notice c |})).
    { destruct c as [|message]; cbn [run_closer disconnect_notice].
      - rewrite Close_run, Honce. reflexivity.
      - unfold Disconnect. run. rewrite Close_run. cbn [once sess].
        rewrite Honce, app_nil_r. reflexivity. }
    rewrite Hc, IH by exact Honce. cbn [sess trace].
    now rewrite app_assoc.
Qed.

Lemma closer_first (c : closer) s tr :
  once s = false ->
  run_closer c {| sess := s; trace := tr |}
  = (Returned tt,
     {| sess := with_once true s;
        trace := tr ++ disconnect_notice c ++ close_trace s |}).
Proof.
  intros Honce. destruct c as [|message]; cbn [run_closer disconnect_notice].
  - rewrite Close_run, Honce. reflexivity.
  - unfold Disconnect. run. rewrite Close_run. cbn [once sess].
    rewrite Honce. norm_trace. reflexivity.
Qed.

Lemma countb_notices (p : event -> bool) (cs : list closer) :
  (forall pk, p (EvWritePacket pk) = false) ->
  countb p (flat_map disconnect_notice cs) = 0%nat.
Proof.
  intros Hp. induction cs as [|[|message] cs IH]; cbn [flat_map];
    rewrite ?countb_app, ?IH; try reflexivity.
  cbn [disconnect_notice]. rewrite countb_cons, Hp. reflexivity.
Qed.

Lemma countb_notice (p : event -> bool) (c : closer) :
  (forall pk, p (EvWritePacket pk) = false) ->
  countb p (disconnect_notice c) = 0%nat.
Proof.
  intros Hp. destruct c as [|message]; [reflexivity|].
  cbn [disconnect_notice]. rewrite countb_cons, Hp. reflexivity.
Qed.

Lemma close_trace_counts (s : Session) :
  countb is_client_close (close_trace s) = 1%nat
  /\ countb is_server_close (close_trace s)
     = match serverConn s with Some _ => 1%nat | None => 0%nat end
  /\ filter is_remove_session (close_trace s)
     = [EvRemoveSession (XUID (clientIdentity (clientConn s)))].
Proof.
  unfold close_trace. destruct (serverConn s) as [c|]; repeat split.
Qed.

(** C5.  On a session that has not been closed, any non-empty sequence of
    [Close] and [Disconnect] calls runs the teardown once, in its first
    call: the client connection is closed once, the backend connection once
    if there is one and never otherwise, the session is removed from the
    registry once, under the client's XUID; the later calls add nothing but
    the disconnect notices of [Disconnect].  A [Close] on a closed session
    changes nothing.  The same holds when the first [Close] is the one of a
    failed startup. *)
Theorem Close_is_idempotent :
  (forall (w : World) (first : closer) (rest : list closer),
      once (sess w) = false ->
      exists delta,
        forM_ (first :: rest) run_closer w
        = (Returned tt,
           {| sess := with_once true (sess w); trace := trace w ++ delta |})
        /\ delta = disconnect_notice first ++ close_trace (sess w)
                     ++ flat_map disconnect_notice rest
        /\ countb is_client_close delta = 1%nat
        /\ (countb is_server_close delta <= 1)%nat
        /\ countb is_server_close delta
           = match serverConn (sess w) with Some _ => 1%nat | None => 0%nat end
        /\ filter is_remove_session delta
           = [EvRemoveSession (XUID (clientIdentity (clientConn (sess w))))])
  /\ (forall w : World, once (sess w) = true -> Close w = (Returned tt, w))
  /\ (forall clientConn addr latencyInterval net startGame (cs : list closer),
         startup_fails net startGame addr = true ->
         let r := NewSession clientConn addr latencyInterval in
         let w1 := snd (newGoroutine r net startGame (fresh_world r)) in
         let w2 := snd (forM_ cs run_closer w1) in
         countb is_client_close (trace w2) = 1%nat
         /\ (countb is_server_close (trace w2) <= 1)%nat
         /\ filter is_remove_session (trace w2)
            = [EvRemoveSession (XUID (clientIdentity clientConn))]).
Proof.
  split; [|split].
  - intros [s tr] first rest Honce. cbn [sess trace] in *.
    exists (disconnect_notice first ++ close_trace s
              ++ flat_map disconnect_notice rest).
    destruct (close_trace_counts s) as (Hcc & Hsc & Hrm).
    split.
    { cbn [forM_]. unfold bind at 1.
      rewrite closer_first by exact Honce.
      rewrite closers_after_close by reflexivity.
      cbn [sess trace]. norm_trace. reflexivity. }
    split; [reflexivity|].
    rewrite !countb_app, !filter_app, Hcc, Hsc, Hrm.
    rewrite !countb_notices, !countb_notice by reflexivity.
    assert (Hn1 : filter is_remove_session (disconnect_notice first) = [])
      by (destruct first; reflexivity).
    assert (Hn2 : filter is_remove_session (flat_map disconnect_notice rest)
                  = []).
    { induction rest as [|[|m] rest IH]; cbn; auto. }
    rewrite Hn1, Hn2.
    destruct (serverConn s); cbn; repeat split; try lia.
  - exact Close_after_close.
  - intros cc addr li net startGame cs Hfail r w1 w2.
    subst w2 w1 r. unfold NewSession, fresh_world, startup_fails in *.
    cbn [newGoroutine newSession].
    destruct (net addr) as [err|conn] eqn:Hnet.
    + erewrite startup_dial_failure by (try eassumption; reflexivity).
      cbn [snd]. rewrite closers_after_close by reflexivity.
      cbn [snd trace]. rewrite !countb_app, !filter_app.
      rewrite !countb_notices by reflexivity.
      replace (filter is_remove_session (flat_map disconnect_notice cs))
        with (@nil event)
        by (induction cs as [|[|m] cs IH]; cbn; auto).
      cbn; repeat split; try lia.
    + destruct (startGame (connGameData conn)) as [err|] eqn:Hgame;
        [|discriminate].
      erewrite startup_game_failure by (try eassumption; reflexivity).
      cbn [snd]. rewrite closers_after_close by reflexivity.
      cbn [snd trace]. rewrite !countb_app, !filter_app.
      rewrite !countb_notices by reflexivity.
      replace (filter is_remove_session (flat_map disconnect_notice cs))
        with (@nil event)
        by (induction cs as [|[|m] cs IH]; cbn; auto).
      cbn; repeat split; try lia.
Qed.

Lemma Close_is_idempotent_witness :
  exists delta,
    forM_ [ViaDisconnect "kicked"; ViaClose; ViaClose] run_closer Sample.started
    = (Returned tt,
       {| sess := with_once true (sess Sample.started);
          trace := trace Sample.started ++ delta |})
    /\ countb is_client_close delta = 1%nat
    /\ countb is_server_close delta = 1%nat
    /\ filter is_remove_session delta = [EvRemoveSession "2535416"].
Proof.
  destruct Close_is_idempotent as (Hfirst & _ & _).
  destruct (Hfirst Sample.started (ViaDisconnect "kicked") [ViaClose; ViaClose])
    as (delta & Hrun & _ & Hcc & _ & Hsc & Hrm).
  - reflexivity.
  - exists delta. repeat split; assumption.
Defined.

(** C9.  [Close] on a session that is not closed and has no backend
    connection returns normally, having closed the client connection,
    removed the session from the registry and logged, with no close of a
    backend connection in between.  With a backend connection in place the
    same call closes it, between the client close and the removal.  The
    first case is the one a failed initial dial leads to: the goroutine
    stores the nil connection, calls [Close], and no backend close appears
    in its trace. *)
Theorem Close_skips_absent_backend :
  (forall w : World,
      once (sess w) = false ->
      serverConn (sess w) = None ->
      Close w
      = (Returned tt,
         {| sess := with_once true (sess w);
            trace := trace w
                       ++ [EvClientClose;
                           EvRemoveSession
                             (XUID (clientIdentity (clientConn (sess w))));
                           EvLog LvlInfo
                             ("Closed session for "
                                ++ DisplayName
                                     (clientIdentity (clientConn (sess w))))
                             %string] |}))
  /\ (forall (w : World) (c : Conn),
         once (sess w) = false ->
         serverConn (sess w) = Some c ->
         Close w
         = (Returned tt,
            {| sess := with_once true (sess w);
               trace := trace w
                          ++ [EvClientClose; EvServerClose c;
                              EvRemoveSession
                                (XUID (clientIdentity (clientConn (sess w))));
                              EvLog LvlInfo
                                ("Closed session for "
                                   ++ DisplayName
                                        (clientIdentity (clientConn (sess w))))
                                %string] |}))
  /\ (forall clientConn addr latencyInterval net startGame err,
         net addr = inl err ->
         let r := NewSession clientConn addr latencyInterval in
         let res := newGoroutine r net startGame (fresh_world r) in
         fst res = Returned tt
         /\ serverConn (sess (snd res)) = None
         /\ countb is_server_close (trace (snd res)) = 0%nat
         /\ countb is_client_close (trace (snd res)) = 1%nat
         /\ countb is_remove_session (trace (snd res)) = 1%nat).
Proof.
  split; [|split].
  - intros [s tr] Honce Hnil. cbn [sess trace] in *.
    rewrite Close_run, Honce. unfold close_trace. rewrite Hnil. reflexivity.
  - intros [s tr] c Honce Hconn. cbn [sess trace] in *.
    rewrite Close_run, Honce. unfold close_trace. rewrite Hconn. reflexivity.
  - intros cc addr li net startGame err Hnet r res. subst res r.
    unfold NewSession, fresh_world. cbn [newGoroutine newSession].
    erewrite startup_dial_failure by (try eassumption; reflexivity).
    repeat split.
Qed.

Lemma Close_skips_absent_backend_witness :
  Close Sample.created
  = (Returned tt,
     {| sess := with_once true (sess Sample.created);
        trace := [EvClientClose; EvRemoveSession "2535416";
                  EvLog LvlInfo "Closed session for Steve"] |})
  /\ countb is_server_close
       (trace (snd (newGoroutine (NewSession Sample.client "A" 50)
                      Sample.unreachable Sample.accept Sample.created)))
     = 0%nat.
Proof.
  destruct Close_skips_absent_backend as (Hnil & _ & Hstart).
  split.
  - exact (Hnil Sample.created eq_refl eq_refl).
  - destruct (Hstart Sample.client "A" 50 Sample.unreachable Sample.accept
                     "connection refused" eq_refl)
      as (_ & _ & Hnone & _).
    exact Hnone.
Defined.

(** ** C6 and C10: construction and startup *)

(** The world a failed startup leaves behind: [c] is the connection the dial
    produced, if any. *)
Lemma startup_failure_outcome
      (clientConn : ClientConn) (addr : string) (latencyInterval : Z)
      (net : Dialer) (startGame : GameData -> option error) :
  startup_fails net startGame addr = true ->
  let r := NewSession clientConn addr latencyInterval in
  exists c s msg,
    newGoroutine r net startGame (fresh_world r)
    = (Returned tt,
       {| sess := with_once true s;
          trace := [dial_event (newSession r) addr; EvSetServerAddr addr;
                    EvSetServerConn c]
                     ++ match c with
                        | Some conn => [EvStartGame (connGameData conn)]
                        | None => []
                        end
                     ++ close_trace s
                     ++ [EvLog LvlError msg] |})
    /\ s = match c with
           | Some conn => started_on conn addr (newSession r)
           | None => with_serverConn None
                       (with_serverAddr addr (newSession r))
           end.
Proof.
  intros Hfail r. subst r.
  unfold NewSession, fresh_world, startup_fails in *.
  cbn [newGoroutine newSession].
  destruct (net addr) as [err|conn] eqn:Hnet.
  - erewrite startup_dial_failure by (try eassumption; reflexivity).
    exists None. eexists _, _. split; reflexivity.
  - destruct (startGame (connGameData conn)) as [err|] eqn:Hgame;
      [|discriminate].
    erewrite startup_game_failure by (try eassumption; reflexivity).
    exists (Some conn). eexists _, _. split; reflexivity.
Qed.

(** C6.  When the initial dial fails, or the dial succeeds and the start-game
    relay fails, the goroutine of a new session returns after closing the
    session and logging the error: the session is marked closed, its client
    connection has been closed once, and the trace holds no registry
    addition, no spawned pump or latency sampler, and no packet written to
    the client. *)
Theorem failed_startup_registers_nothing
        (clientConn : ClientConn) (addr : string) (latencyInterval : Z)
        (net : Dialer) (startGame : GameData -> option error) :
  startup_fails net startGame addr = true ->
  let r := NewSession clientConn addr latencyInterval in
  let res := newGoroutine r net startGame (fresh_world r) in
  fst res = Returned tt
  /\ once (sess (snd res)) = true
  /\ countb is_client_close (trace (snd res)) = 1%nat
  /\ countb is_add_session (trace (snd res)) = 0%nat
  /\ countb is_go (trace (snd res)) = 0%nat
  /\ countb is_write (trace (snd res)) = 0%nat
  /\ exists before msg, trace (snd res) = before ++ [EvLog LvlError msg].
Proof.
  intros Hfail r res.
  destruct (startup_failure_outcome
              clientConn addr latencyInterval net startGame Hfail)
    as (c & s & msg & Hrun & Hs).
  subst res. fold r in Hrun. rewrite Hrun. cbn [fst snd sess trace].
  split; [reflexivity|]. split; [reflexivity|].
  unfold close_trace.
  repeat split;
    try (destruct c as [conn|]; destruct (serverConn s); reflexivity).
  eexists _, msg. rewrite !app_assoc. reflexivity.
Qed.

Lemma failed_startup_registers_nothing_witness :
  let r := NewSession Sample.client "A" 50 in
  let dial_failed := newGoroutine r Sample.unreachable Sample.accept
                                  (fresh_world r) in
  let game_failed := newGoroutine r Sample.net Sample.refuse (fresh_world r) in
  (fst dial_failed = Returned tt
   /\ once (sess (snd dial_failed)) = true
   /\ countb is_add_session (trace (snd dial_failed)) = 0%nat)
  /\ (fst game_failed = Returned tt
      /\ once (sess (snd game_failed)) = true
      /\ countb is_add_session (trace (snd game_failed)) = 0%nat).
Proof.
  split.
  - destruct (failed_startup_registers_nothing
                Sample.client "A" 50 Sample.unreachable Sample.accept eq_refl)
      as (Hret & Honce & _ & Hadd & _).
    repeat split; assumption.
  - destruct (failed_startup_registers_nothing
                Sample.client "A" 50 Sample.net Sample.refuse eq_refl)
      as (Hret & Honce & _ & Hadd & _).
    repeat split; assumption.
Defined.

(** C10.  The error result of [NewSession] is nil for every client
    connection, address and latency interval.  The goroutine it spawns
    always returns; when the dial or the start-game relay fails it has
    closed the session and its last act was an error log entry, and
    otherwise the session is left open.  Nothing of this reaches the error
    result. *)
Theorem NewSession_error_is_nil
        (clientConn : ClientConn) (addr : string) (latencyInterval : Z) :
  let r := NewSession clientConn addr latencyInterval in
  newErr r = None
  /\ forall (net : Dialer) (startGame : GameData -> option error),
      exists w,
        newGoroutine r net startGame (fresh_world r) = (Returned tt, w)
        /\ once (sess w) = startup_fails net startGame addr
        /\ (if startup_fails net startGame addr
            then exists before msg, trace w = before ++ [EvLog LvlError msg]
            else countb is_add_session (trace w) = 1%nat).
Proof.
  intros r. split; [reflexivity|]. intros net startGame.
  destruct (startup_fails net startGame addr) eqn:Hfail.
  - destruct (startup_failure_outcome
                clientConn addr latencyInterval net startGame Hfail)
      as (c & s & msg & Hrun & _).
    fold r in Hrun. rewrite Hrun. eexists. split; [reflexivity|].
    split; [reflexivity|]. cbn [trace].
    eexists _, msg. rewrite !app_assoc. reflexivity.
  - subst r. unfold NewSession, fresh_world, startup_fails in *.
    cbn [newGoroutine newSession].
    destruct (net addr) as [err|conn] eqn:Hnet; [discriminate|].
    destruct (startGame (connGameData conn)) as [err|] eqn:Hgame;
      [discriminate|].
    erewrite startup_success by eassumption.
    eexists. split; [reflexivity|]. split; [reflexivity|].
    cbn [trace]. repeat (rewrite ?countb_app, ?countb_cons).
    rewrite countb_writes by reflexivity. reflexivity.
Qed.

(** ** The transferring flag under concurrent calls *)

Lemma countb_middle {A} (p : A -> bool) (before after : list A) (x : A) :
  countb p (before ++ x :: after)
  = (countb p before + b2n (p x) + countb p after)%nat.
Proof. rewrite countb_app, countb_cons. lia. Qed.

Lemma holds_lock_in_flight (ts : list pc) :
  (countb holds_lock ts <= countb in_flight ts)%nat.
Proof.
  induction ts as [|t ts IH]; [reflexivity|].
  rewrite !countb_cons. destruct t; cbn; lia.
Qed.

Lemma b2n_true (b : bool) : (1 <= b2n b)%nat -> b = true.
Proof. destruct b; cbn; [reflexivity|lia]. Qed.

Section Interleaving.

Variable emptyChunk : Z -> list Byte.byte.

Lemma transfer_body_keeps_flags net addr w :
  transferring (sess (snd (transfer_body emptyChunk net addr w)))
  = transferring (sess w)
  /\ serverMu (sess (snd (transfer_body emptyChunk net addr w)))
     = serverMu (sess w).
Proof.
  rewrite transfer_body_eq. unfold transfer_body_spec.
  destruct (net addr) as [err|conn]; [split; reflexivity|].
  destruct (serverConn (sess w)) as [old|]; split; reflexivity.
Qed.

Lemma initial_invariant c : initial c -> flag_invariant c.
Proof.
  destruct c as [w ts]. unfold initial, flag_invariant, idle, rw_free.
  cbn [fst snd]. intros [Hidle Hnone].
  apply andb_true_iff in Hidle as [Hflag Hmu].
  apply andb_true_iff in Hmu as [Hmu Hwt].
  apply andb_true_iff in Hmu as [Hwr Hrd].
  apply negb_true_iff in Hflag, Hwr, Hwt. rewrite Hflag, Hwr.
  pose proof (holds_lock_in_flight ts).
  split; [cbn; lia|]. split; [cbn; lia|]. split; [discriminate|exact Hwt].
Qed.

Lemma step_invariant c c' :
  flag_invariant c -> step emptyChunk c c' -> flag_invariant c'.
Proof.
  unfold flag_invariant.
  intros (Hflag & Hlock & Hexcl & Hwait) Hstep.
  destruct Hstep as [w w' t t' before after Hthread
                    | w ts net addr | w ts Hwr | w ts Hrd];
    cbn [fst snd] in *.
  - rewrite countb_middle in Hflag, Hlock. rewrite !countb_middle.
    destruct t as [net addr|net addr|net addr|r|r|r];
      cbn [thread_step] in Hthread.
    + unfold CompareAndSwap_false_true in Hthread.
      destruct (transferring (sess w)) eqn:Htf.
      * injection Hthread as <- <-. rewrite Htf.
        split; [cbn in *; lia|]. split; [cbn in *; lia|].
        split; [exact Hexcl|exact Hwait].
      * cbn in Hthread. injection Hthread as <- <-.
        split; [cbn in *; lia|]. split; [cbn in *; lia|].
        split; [exact Hexcl|exact Hwait].
    + unfold Lock in Hthread.
      destruct (rw_free (serverMu (sess w))) eqn:Hfree; [|discriminate].
      cbn in Hthread. injection Hthread as <- <-.
      unfold rw_free in Hfree. apply andb_true_iff in Hfree as [Hfree _].
      apply andb_true_iff in Hfree as [Hwr _].
      apply negb_true_iff in Hwr. rewrite Hwr in Hlock.
      split; [cbn in *; lia|]. split; [cbn in *; lia|].
      split; reflexivity.
    + destruct (transfer_body_keeps_flags net addr w) as [Htf Hmu].
      destruct (transfer_body emptyChunk net addr w) as [r w1].
      injection Hthread as <- <-. cbn [snd] in Htf, Hmu.
      rewrite Htf, Hmu.
      split; [cbn in *; lia|]. split; [cbn in *; lia|].
      split; [exact Hexcl|exact Hwait].
    + injection Hthread as <- <-.
      assert (Hwr : writer (serverMu (sess w)) = true)
        by (apply b2n_true; cbn in Hlock; lia).
      rewrite Hwr in Hlock.
      split; [cbn in *; lia|]. split; [cbn in *; lia|].
      split; [discriminate|exact Hwait].
    + injection Hthread as <- <-.
      assert (Htf : transferring (sess w) = true)
        by (apply b2n_true; cbn in Hflag; lia).
      rewrite Htf in Hflag.
      split; [cbn in *; lia|]. split; [cbn in *; lia|].
      split; [exact Hexcl|exact Hwait].
    + discriminate.
  - rewrite !countb_app.
    split; [cbn in *; lia|]. split; [cbn in *; lia|].
    split; [exact Hexcl|exact Hwait].
  - unfold RLock. cbn. rewrite Hwr in Hlock.
    split; [exact Hflag|]. split; [exact Hlock|].
    split; [discriminate|exact Hwait].
  - unfold RUnlock. cbn.
    split; [exact Hflag|]. split; [exact Hlock|].
    split; [|exact Hwait].
    intros Hw. specialize (Hexcl Hw). lia.
Qed.

Lemma steps_invariant c c' :
  initial c -> steps emptyChunk c c' -> flag_invariant c'.
Proof.
  intros Hinit Hsteps. induction Hsteps as [c|c1 c2 c3 _ IH Hstep].
  - now apply initial_invariant.
  - eapply step_invariant; [apply IH; exact Hinit|exact Hstep].
Qed.

(** A call that meets no interference runs through its five steps and
    ends as [Transfer] says. *)
Lemma run_alone_Transfer net addr w :
  idle (sess w) = true ->
  run_alone emptyChunk 5 (AtCall net addr) w
  = (Done (fst (Transfer emptyChunk net addr w)),
     snd (Transfer emptyChunk net addr w)).
Proof.
  destruct w as [s tr]. unfold idle. cbn [sess]. intros Hidle.
  apply andb_true_iff in Hidle as [Hflag Hmu].
  apply negb_true_iff in Hflag.
  unfold Transfer, bind, defer, run_alone.
  cbn [thread_step]. unfold CompareAndSwap_false_true.
  cbn [sess]. rewrite Hflag. cbn [modify sess trace negb].
  cbn [thread_step]. unfold Lock.
  cbn [sess serverMu with_transferring]. rewrite Hmu.
  cbn [modify sess trace]. unfold thread_step.
  match goal with
  | |- context [transfer_body emptyChunk net addr ?x] =>
      destruct (transfer_body emptyChunk net addr x) as [r w1]
  end.
  reflexivity.
Qed.

End Interleaving.

(** ** C2 *)

(** C2.  A [Transfer] called while the transferring flag is set returns the
    error "already transferring" and leaves the world as it found it: the
    trace is the same (no packet written, no dial) and so is the session
    (backend connection and address included).  Among concurrent calls on a
    session that started idle, at most one is past the flag check and not
    yet back at any moment, and a call that makes its flag check while
    another one is in flight is rejected in that way. *)
Theorem Transfer_rejected_while_transferring
        (emptyChunk : Z -> list Byte.byte) :
  (forall net addr w,
      transferring (sess w) = true ->
      Transfer emptyChunk net addr w
      = (Returned (Some ErrAlreadyTransferring), w))
  /\ (forall c0 w ts,
         initial c0 ->
         steps emptyChunk c0 (w, ts) ->
         (countb in_flight ts <= 1)%nat)
  /\ (forall c0 w before net addr after,
         initial c0 ->
         steps emptyChunk c0 (w, before ++ AtCall net addr :: after) ->
         (1 <= countb in_flight (before ++ after))%nat ->
         thread_step emptyChunk (AtCall net addr) w
         = Some (Done (Returned (Some ErrAlreadyTransferring)), w)).
Proof.
  split; [|split].
  - intros net addr w. apply Transfer_rejected.
  - intros c0 w ts Hinit Hsteps.
    destruct (steps_invariant emptyChunk c0 (w, ts) Hinit Hsteps)
      as (Hflag & _).
    cbn [fst snd] in Hflag. rewrite Hflag.
    destruct (transferring (sess w)); cbn; lia.
  - intros c0 w before net addr after Hinit Hsteps Hother.
    destruct (steps_invariant emptyChunk c0 _ Hinit Hsteps) as (Hflag & _).
    cbn [fst snd] in Hflag. rewrite countb_middle in Hflag.
    rewrite countb_app in Hother.
    assert (Htf : transferring (sess w) = true)
      by (apply b2n_true; cbn in Hflag; lia).
    cbn [thread_step]. unfold CompareAndSwap_false_true.
    rewrite Htf. reflexivity.
Qed.

Lemma Transfer_rejected_while_transferring_witness :
  Transfer Sample.ec Sample.net "A" Sample.busy
  = (Returned (Some "already transferring"), Sample.busy)
  /\ (countb in_flight [AtLock Sample.net "B"; AtCall Sample.net "A"] <= 1)%nat
  /\ thread_step Sample.ec (AtCall Sample.net "A")
                 (snd (CompareAndSwap_false_true Sample.started))
     = Some (Done (Returned (Some "already transferring")),
             snd (CompareAndSwap_false_true Sample.started)).
Proof.
  destruct (Transfer_rejected_while_transferring Sample.ec)
    as (Hseq & Hone & Hrej).
  assert (Hinit : initial (Sample.started,
                           [AtCall Sample.net "B"; AtCall Sample.net "A"]))
    by (split; reflexivity).
  assert (Hsteps : steps Sample.ec
                     (Sample.started,
                      [AtCall Sample.net "B"; AtCall Sample.net "A"])
                     (snd (CompareAndSwap_false_true Sample.started),
                      [AtLock Sample.net "B"; AtCall Sample.net "A"])).
  { eapply steps_next; [apply steps_refl|].
    apply (step_thread Sample.ec Sample.started _
                       (AtCall Sample.net "B") (AtLock Sample.net "B")
                       [] [AtCall Sample.net "A"]).
    reflexivity. }
  split; [|split].
  - apply Hseq. reflexivity.
  - exact (Hone _ _ _ Hinit Hsteps).
  - apply (Hrej _ _ [AtLock Sample.net "B"] Sample.net "A" [] Hinit Hsteps).
    cbn. lia.
Defined.

(** ** C8 *)

(** A call rejected at the flag check returns with the flag still set and
    the write lock still held: both belong to the transfer in flight. *)
Lemma flag_survives_rejected_Transfer :
  transferring (sess Sample.busy) = true
  /\ exists w',
      Transfer Sample.ec Sample.net "A" Sample.busy
      = (Returned (Some ErrAlreadyTransferring), w')
      /\ transferring (sess w') = true
      /\ writer (serverMu (sess w')) = true.
Proof.
  split; [reflexivity|].
  exists Sample.busy. repeat split.
Qed.

(** C8, amended.  A [Transfer] that gets past the flag check leaves the flag
    clear and the write lock free when it is over, whether the dial failed,
    the transfer went through, or the body panicked; the next call on the
    session is therefore neither rejected nor kept waiting, and runs its
    body.  A call rejected at the flag check touches neither flag nor lock.
    Among concurrent calls on a session that started idle, the flag is set
    exactly when one call is between its flag check and its return, and the
    writer bit exactly when one call holds the lock. *)
Theorem Transfer_releases_flag_and_lock
        (emptyChunk : Z -> list Byte.byte) :
  (forall net addr w,
      idle (sess w) = true ->
      let res := Transfer emptyChunk net addr w in
      transferring (sess (snd res)) = false
      /\ rw_free (serverMu (sess (snd res))) = true
      /\ fst res <> Blocked
      /\ forall net' addr',
          Transfer emptyChunk net' addr' (snd res)
          = transfer_body_spec emptyChunk net' addr' (snd res))
  /\ (forall net addr w,
         transferring (sess w) = true ->
         Transfer emptyChunk net addr w
         = (Returned (Some ErrAlreadyTransferring), w))
  /\ (forall c0 w ts,
         initial c0 ->
         steps emptyChunk c0 (w, ts) ->
         countb in_flight ts = b2n (transferring (sess w))
         /\ countb holds_lock ts = b2n (writer (serverMu (sess w)))).
Proof.
  split; [|split].
  - intros net addr w Hidle res. subst res.
    rewrite (Transfer_idle emptyChunk net addr w Hidle).
    pose proof (transfer_body_spec_idle emptyChunk net addr w Hidle) as Hafter.
    assert (Hparts := Hafter). unfold idle in Hparts.
    apply andb_true_iff in Hparts as [Hflag Hmu].
    apply negb_true_iff in Hflag.
    split; [exact Hflag|]. split; [exact Hmu|]. split.
    + unfold transfer_body_spec.
      destruct (net addr) as [err|conn]; [discriminate|].
      destruct (serverConn (sess w)); discriminate.
    + intros net' addr'. now apply Transfer_idle.
  - intros net addr w. apply Transfer_rejected.
  - intros c0 w ts Hinit Hsteps.
    destruct (steps_invariant emptyChunk c0 (w, ts) Hinit Hsteps)
      as (Hflag & Hlock & _).
    split; assumption.
Qed.

Lemma Transfer_releases_flag_and_lock_witness :
  let failed := Transfer Sample.ec Sample.net "C" Sample.started in
  let moved := Transfer Sample.ec Sample.net "B" (snd failed) in
  fst failed = Returned (Some "connection refused")
  /\ transferring (sess (snd failed)) = false
  /\ rw_free (serverMu (sess (snd failed))) = true
  /\ fst moved = Returned None
  /\ transferring (sess (snd moved)) = false
  /\ rw_free (serverMu (sess (snd moved))) = true.
Proof.
  destruct (Transfer_releases_flag_and_lock Sample.ec) as (Hexit & _ & _).
  destruct (Hexit Sample.net "C" Sample.started eq_refl)
    as (Hflag1 & Hmu1 & _ & _).
  assert (Hidle : idle (sess (snd (Transfer Sample.ec Sample.net "C"
                                            Sample.started))) = true)
    by (unfold idle; now rewrite Hflag1, Hmu1).
  destruct (Hexit Sample.net "B" _ Hidle) as (Hflag2 & Hmu2 & _ & _).
  split; [vm_compute; reflexivity|]. split; [exact Hflag1|].
  split; [exact Hmu1|]. split; [vm_compute; reflexivity|].
  split; [exact Hflag2|exact Hmu2].
Defined.

(** ** C4: the chunk flood *)

Lemma range_In (lo hi x : Z) : In x (Int32.range lo hi) <-> lo <= x <= hi.
Proof.
  unfold Int32.range. rewrite in_map_iff. split.
  - intros (i & <- & Hi). apply in_seq in Hi. lia.
  - intros Hx. exists (Z.to_nat (x - lo)). split; [lia|].
    apply in_seq. lia.
Qed.

Lemma range_length (lo hi : Z) :
  List.length (Int32.range lo hi) = Z.to_nat (hi - lo + 1).
Proof. unfold Int32.range. now rewrite length_map, length_seq. Qed.

Lemma range_NoDup (lo hi : Z) : NoDup (Int32.range lo hi).
Proof.
  unfold Int32.range. apply NoDup_map_NoDup_ForallPairs; [|apply seq_NoDup].
  intros i j _ _ Hij. lia.
Qed.

Lemma list_prod_NoDup {A B} (l : list A) (l' : list B) :
  NoDup l -> NoDup l' -> NoDup (list_prod l l').
Proof.
  intros Hl Hl'. induction Hl as [|x l Hx _ IH]; cbn [list_prod].
  - constructor.
  - apply NoDup_app.
    + apply NoDup_map_NoDup_ForallPairs; [|exact Hl'].
      intros a b _ _ Hab. now injection Hab.
    + exact IH.
    + intros [a b] Hin Hin'. apply in_map_iff in Hin as (b' & Heq & _).
      injection Heq as <- <-. apply in_prod_iff in Hin' as [Hin' _].
      contradiction.
Qed.

Lemma of_float32_in_range (q : Q) :
  Int32.min_int <= Int32.of_float32 q <= Int32.max_int.
Proof.
  unfold Int32.of_float32, Int32.in_range.
  destruct ((Int32.min_int <=? Int32.truncate q)
            && (Int32.truncate q <=? Int32.max_int)) eqn:Hr.
  - apply andb_true_iff in Hr as [Hlo Hhi]. lia.
  - unfold Int32.min_int, Int32.max_int. lia.
Qed.

Lemma chunk_coordinate_bounds (q : Q) :
  - 2 ^ 27 <= Int32.shr (Int32.of_float32 q) 4 < 2 ^ 27.
Proof.
  pose proof (of_float32_in_range q) as Hr.
  unfold Int32.shr, Int32.min_int, Int32.max_int in *.
  rewrite Z.shiftr_div_pow2 by lia.
  change (2 ^ 4) with 16.
  split.
  - apply Z.div_le_lower_bound; lia.
  - apply Z.div_lt_upper_bound; lia.
Qed.

Lemma int32_sub_small (c : Z) :
  - 2 ^ 27 <= c < 2 ^ 27 -> Int32.sub c 4 = c - 4.
Proof.
  intros Hc. unfold Int32.sub, Int32.wrap.
  rewrite Z.mod_small; lia.
Qed.

Lemma int32_add_small (c : Z) :
  - 2 ^ 27 <= c < 2 ^ 27 -> Int32.add c 4 = c + 4.
Proof.
  intros Hc. unfold Int32.add, Int32.wrap.
  rewrite Z.mod_small; lia.
Qed.

Lemma flat_map_pairs {A B C} (f : A * B -> C) (l : list A) (l' : list B) :
  flat_map (fun x => map (fun y => f (x, y)) l') l = map f (list_prod l l').
Proof.
  induction l as [|x l IH]; [reflexivity|].
  cbn [flat_map list_prod]. rewrite map_app, map_map, IH. reflexivity.
Qed.

(** The flood is one chunk packet per position of the square of radius
    four around the centre, none of the subtractions wrapping around. *)
Lemma chunk_flood_square (emptyChunk : Z -> list Byte.byte) (gd : GameData) :
  chunk_flood emptyChunk gd
  = map (fun p => packet.LevelChunk packet.DimensionNether p 1
                    (emptyChunk (Dimension gd)))
        (chunk_square (fst (flood_centre gd)) (snd (flood_centre gd)) 4).
Proof.
  unfold chunk_flood, chunk_square, flood_centre. cbn [fst snd].
  rewrite !int32_sub_small, !int32_add_small
    by apply chunk_coordinate_bounds.
  apply (flat_map_pairs
           (fun p => packet.LevelChunk packet.DimensionNether p 1
                       (emptyChunk (Dimension gd)))).
Qed.

Lemma chunk_square_length (cx cz : Z) :
  List.length (chunk_square cx cz 4) = 81%nat.
Proof.
  unfold chunk_square. rewrite length_prod, !range_length.
  replace (cx + 4 - (cx - 4) + 1) with 9 by lia.
  replace (cz + 4 - (cz - 4) + 1) with 9 by lia.
  reflexivity.
Qed.

Lemma chunk_square_In (cx cz r x z : Z) :
  In (x, z) (chunk_square cx cz r)
  <-> cx - r <= x <= cx + r /\ cz - r <= z <= cz + r.
Proof. unfold chunk_square. now rewrite in_prod_iff, !range_In. Qed.

Lemma chunk_square_NoDup (cx cz r : Z) : NoDup (chunk_square cx cz r).
Proof. apply list_prod_NoDup; apply range_NoDup. Qed.

(** For a coordinate that is not negative and fits an int32, truncating and
    shifting gives the chunk that contains it. *)
Lemma chunk_of_truncate (q : Q) :
  (0 <= q)%Q ->
  Int32.in_range (Int32.truncate q) = true ->
  Int32.shr (Int32.of_float32 q) 4 = chunk_of q.
Proof.
  intros Hq Hr. unfold Int32.of_float32. rewrite Hr.
  unfold Int32.shr, Int32.truncate, chunk_of.
  destruct q as [n d]. unfold Qle in Hq. cbn in Hq. cbn [Qnum Qden].
  rewrite Z.shiftr_div_pow2 by lia. change (2 ^ 4) with 16.
  rewrite Z.quot_div_nonneg by lia.
  unfold Qdiv, Qmult, Qinv, Qfloor. cbn.
  rewrite Z.mul_1_r, Pos2Z.inj_mul.
  rewrite Zdiv_Zdiv by lia. reflexivity.
Qed.

Lemma chunk_flood_dimension (emptyChunk : Z -> list Byte.byte) (gd : GameData)
      (pk : Packet) :
  In pk (chunk_flood emptyChunk gd) ->
  chunk_dimension pk = Some packet.DimensionNether.
Proof.
  rewrite chunk_flood_square. intros Hin.
  apply in_map_iff in Hin as (p & <- & _). reflexivity.
Qed.

(** A transfer to a backend whose start state is in the Nether: every chunk
    packet of the flood carries the target dimension itself. *)
Lemma flood_tagged_with_target_dimension :
  exists w',
    Transfer Sample.ec NetherSample.net "N" Sample.started
    = (Returned None, w')
    /\ Dimension (connGameData NetherSample.conn) = packet.DimensionNether
    /\ (forall pk,
           In pk (chunk_flood Sample.ec (connGameData NetherSample.conn)) ->
           chunk_dimension pk
           = Some (Dimension (connGameData NetherSample.conn)))
    /\ In (EvWritePacket
             (packet.LevelChunk (Dimension (connGameData NetherSample.conn))
                                (0, 2) 1 []))
          (trace w').
Proof.
  exists (snd (Transfer Sample.ec NetherSample.net "N" Sample.started)).
  split; [vm_compute; reflexivity|]. split; [reflexivity|].
  split; [intros pk; apply chunk_flood_dimension|].
  vm_compute. repeat (first [left; reflexivity | right]).
Qed.

(** C4, amended.  A [Transfer] that returns nil writes, right after the
    animation's Play, exactly 81 chunk packets: one for each position of a
    nine by nine square of chunks (radius four, a constant), each position
    once, row by row, each with one sub-chunk and the empty payload built
    for the target dimension.  When the X and Z of the new backend's player
    position are not negative and fit an int32, the square is centred on
    the chunk that contains the position.  Every packet is tagged with the
    Nether dimension, whatever the target; the tag therefore differs from
    the target dimension when the target is not the Nether. *)
Theorem Transfer_chunk_flood
        (emptyChunk : Z -> list Byte.byte) (net : Dialer) (addr : string)
        (w w' : World) :
  Transfer emptyChunk net addr w = (Returned None, w') ->
  exists conn rest cx cz,
    net addr = inr conn
    /\ trace w'
       = trace w
           ++ [suppress_metadata (sess w); dial_event (sess w) addr;
               EvAnimationPlay (connGameData conn)]
           ++ map EvWritePacket (chunk_flood emptyChunk (connGameData conn))
           ++ EvTracker clearEffects :: rest
    /\ chunk_flood emptyChunk (connGameData conn)
       = map (fun p => packet.LevelChunk packet.DimensionNether p 1
                         (emptyChunk (Dimension (connGameData conn))))
             (chunk_square cx cz 4)
    /\ List.length (chunk_flood emptyChunk (connGameData conn)) = 81%nat
    /\ NoDup (chunk_square cx cz 4)
    /\ (forall x z,
           In (x, z) (chunk_square cx cz 4)
           <-> cx - 4 <= x <= cx + 4 /\ cz - 4 <= z <= cz + 4)
    /\ (forall pk,
           In pk (chunk_flood emptyChunk (connGameData conn)) ->
           chunk_dimension pk = Some packet.DimensionNether)
    /\ (Dimension (connGameData conn) <> packet.DimensionNether ->
        forall pk,
          In pk (chunk_flood emptyChunk (connGameData conn)) ->
          chunk_dimension pk <> Some (Dimension (connGameData conn)))
    /\ ((0 <= vecX (PlayerPosition (connGameData conn)))%Q ->
        Int32.in_range
          (Int32.truncate (vecX (PlayerPosition (connGameData conn)))) = true ->
        cx = chunk_of (vecX (PlayerPosition (connGameData conn))))
    /\ ((0 <= vecZ (PlayerPosition (connGameData conn)))%Q ->
        Int32.in_range
          (Int32.truncate (vecZ (PlayerPosition (connGameData conn)))) = true ->
        cz = chunk_of (vecZ (PlayerPosition (connGameData conn)))).
Proof.
  intros Hrun.
  destruct (Transfer_returns_nil emptyChunk net addr w w' Hrun)
    as (conn & old & Hnet & _ & _ & Htrace).
  exists conn. eexists.
  exists (fst (flood_centre (connGameData conn))),
    (snd (flood_centre (connGameData conn))).
  split; [exact Hnet|].
  split.
  { rewrite Htrace. unfold transfer_success_trace, tracker_clears.
    cbn [app]. reflexivity. }
  split; [apply chunk_flood_square|].
  split.
  { rewrite chunk_flood_square, length_map. apply chunk_square_length. }
  split; [apply chunk_square_NoDup|].
  split; [intros x z; apply chunk_square_In|].
  split; [intros pk; apply chunk_flood_dimension|].
  split.
  { intros Hdim pk Hin Heq.
    rewrite (chunk_flood_dimension emptyChunk _ pk Hin) in Heq.
    injection Heq as Heq. now apply Hdim. }
  split; intros Hpos Hfit; now apply chunk_of_truncate.
Qed.

Lemma Transfer_chunk_flood_witness :
  exists w' rest,
    Transfer Sample.ec Sample.net "A" Sample.started = (Returned None, w')
    /\ trace w'
       = trace Sample.started
           ++ [suppress_metadata (sess Sample.started);
               dial_event (sess Sample.started) "A";
               EvAnimationPlay Sample.overworld]
           ++ map EvWritePacket (chunk_flood Sample.ec Sample.overworld)
           ++ EvTracker clearEffects :: rest
    /\ List.length (chunk_flood Sample.ec Sample.overworld) = 81%nat
    /\ chunk_flood Sample.ec Sample.overworld
       = map (fun p => packet.LevelChunk packet.DimensionNether p 1 [])
             (chunk_square 2 6 4)
    /\ chunk_of 40 = 2 /\ chunk_of 100 = 6.
Proof.
  destruct (Transfer_chunk_flood
              Sample.ec Sample.net "A" Sample.started
              (snd (Transfer Sample.ec Sample.net "A" Sample.started)))
    as (conn & rest & cx & cz & Hnet & Htrace & Hsquare & Hlen & _ & _ & _
        & _ & Hx & Hz).
  - vm_compute. reflexivity.
  - injection Hnet as <-.
    exists (snd (Transfer Sample.ec Sample.net "A" Sample.started)), rest.
    split; [vm_compute; reflexivity|]. split; [exact Htrace|].
    split; [exact Hlen|].
    rewrite (Hx ltac:(discriminate) eq_refl) in Hsquare.
    rewrite (Hz ltac:(discriminate) eq_refl) in Hsquare.
    split; [exact Hsquare|]. split; reflexivity.
Defined.

(** * Further properties of session.go *)

(** ** [Server] and the backend a sequence of transfers leaves *)

Lemma Server_run s tr :
  writer (serverMu s) = false ->
  waiting (serverMu s) = false ->
  Server {| sess := s; trace := tr |}
  = (Returned (serverConn s), {| sess := s; trace := tr |}).
Proof.
  intros Hwr Hwt. unfold Server. cbn [sess]. rewrite Hwr, Hwt.
  destruct s as [cc a c [wr rd wt] lat o tf]. cbn in Hwr, Hwt. subst wr wt.
  reflexivity.
Qed.

Lemma idle_no_writer (s : Session) :
  idle s = true ->
  writer (serverMu s) = false /\ waiting (serverMu s) = false.
Proof.
  unfold idle, rw_free. intros H.
  apply andb_true_iff in H as [_ H]. apply andb_true_iff in H as [H Hwt].
  apply andb_true_iff in H as [Hwr _].
  apply negb_true_iff in Hwr, Hwt. now split.
Qed.

Lemma Server_idle w :
  idle (sess w) = true -> Server w = (Returned (serverConn (sess w)), w).
Proof.
  intros Hidle. destruct (idle_no_writer _ Hidle) as [Hwr Hwt].
  destruct w as [s tr]. now apply Server_run.
Qed.

(** X2.  [Server] hands out the backend connection of the session and leaves
    session and trace as they were, read lock included, when no writer holds
    the lock and none waits for it.  While a writer holds the lock or waits
    for it the caller waits and nothing is handed out: this is so while a
    [Transfer] is between its [Lock] and its [Unlock], and also while a
    [Transfer] waits in [Lock] behind a reader.  Once a [Transfer] is over,
    [Server] hands out the connection it left. *)
Theorem Server_reads_under_read_lock :
  (forall w : World,
      writer (serverMu (sess w)) = false ->
      waiting (serverMu (sess w)) = false ->
      Server w = (Returned (serverConn (sess w)), w))
  /\ (forall w : World,
         writer (serverMu (sess w)) = true
         \/ waiting (serverMu (sess w)) = true ->
         Server w = (Blocked, w))
  /\ (forall (emptyChunk : Z -> list Byte.byte) net addr (w : World),
         idle (sess w) = true ->
         Server (snd (Lock (snd (CompareAndSwap_false_true w))))
         = (Blocked, snd (Lock (snd (CompareAndSwap_false_true w))))
         /\ Server (snd (Transfer emptyChunk net addr (RLock w)))
            = (Blocked, snd (Transfer emptyChunk net addr (RLock w)))
         /\ Server (snd (Transfer emptyChunk net addr w))
            = (Returned (serverConn
                           (sess (snd (Transfer emptyChunk net addr w)))),
               snd (Transfer emptyChunk net addr w))).
Proof.
  split; [|split].
  - intros [s tr] Hwr Hwt. now apply Server_run.
  - intros w [Hwr|Hwt]; unfold Server.
    + now rewrite Hwr.
    + rewrite Hwt. now rewrite orb_true_r.
  - intros emptyChunk net addr w Hidle.
    assert (Hparts := Hidle). unfold idle in Hparts.
    apply andb_true_iff in Hparts as [Hflag Hmu].
    apply negb_true_iff in Hflag.
    split; [|split].
    + unfold CompareAndSwap_false_true, Lock. rewrite Hflag.
      cbn [modify snd sess with_transferring serverMu]. rewrite Hmu.
      reflexivity.
    + rewrite Transfer_blocked; [reflexivity|exact Hflag|reflexivity].
    + pose proof (transfer_body_spec_idle emptyChunk net addr w Hidle)
        as Hafter.
      rewrite <- (Transfer_idle emptyChunk net addr w Hidle) in Hafter.
      now apply Server_idle.
Qed.

Lemma Server_reads_under_read_lock_witness :
  Server Sample.started = (Returned (Some Sample.connA), Sample.started)
  /\ Server Sample.busy = (Blocked, Sample.busy)
  /\ fst (Server (snd (Transfer Sample.ec Sample.net "B"
                                (RLock Sample.started))))
     = Blocked
  /\ fst (Server (snd (Transfer Sample.ec Sample.net "B" Sample.started)))
     = Returned (Some Sample.connB).
Proof.
  destruct Server_reads_under_read_lock as (Hread & Hwait & Hafter).
  destruct (Hafter Sample.ec Sample.net "B" Sample.started eq_refl)
    as (_ & Hbehind & Hserver).
  split; [|split; [|split]].
  - exact (Hread Sample.started eq_refl eq_refl).
  - apply Hwait. left. reflexivity.
  - rewrite Hbehind. reflexivity.
  - rewrite Hserver. reflexivity.
Defined.

Lemma Transfer_serverConn (emptyChunk : Z -> list Byte.byte) net addr w :
  serverConn (sess (snd (Transfer emptyChunk net addr w)))
  = if succeeded (fst (Transfer emptyChunk net addr w))
    then match net addr with
         | inr c => Some c
         | inl _ => serverConn (sess w)
         end
    else serverConn (sess w).
Proof.
  destruct (transferring (sess w)) eqn:Hflag.
  - now rewrite Transfer_rejected.
  - destruct (rw_free (serverMu (sess w))) eqn:Hmu.
    + rewrite Transfer_idle by (unfold idle; now rewrite Hflag, Hmu).
      unfold transfer_body_spec.
      destruct (net addr) as [err|conn]; [reflexivity|].
      destruct (serverConn (sess w)) as [old|] eqn:Hold; cbn [fst snd sess];
        [reflexivity|exact Hold].
    + now rewrite Transfer_blocked.
Qed.

Lemma run_transfers_serverConn (emptyChunk : Z -> list Byte.byte) calls :
  forall w,
    serverConn (sess (snd (run_transfers emptyChunk calls w)))
    = last_backend (serverConn (sess w)) calls
        (fst (run_transfers emptyChunk calls w)).
Proof.
  induction calls as [|[net addr] rest IH]; intros w; [reflexivity|].
  cbn [run_transfers].
  pose proof (Transfer_serverConn emptyChunk net addr w) as Hone.
  destruct (Transfer emptyChunk net addr w) as [o w1].
  specialize (IH w1).
  destruct (run_transfers emptyChunk rest w1) as [os w2].
  cbn [fst snd] in *. cbn [last_backend].
  rewrite IH, Hone. reflexivity.
Qed.

Lemma run_transfers_idle (emptyChunk : Z -> list Byte.byte) calls :
  forall w,
    idle (sess w) = true ->
    idle (sess (snd (run_transfers emptyChunk calls w))) = true.
Proof.
  induction calls as [|[net addr] rest IH]; intros w Hidle; [exact Hidle|].
  cbn [run_transfers].
  pose proof (transfer_body_spec_idle emptyChunk net addr w Hidle) as Hafter.
  rewrite <- (Transfer_idle emptyChunk net addr w Hidle) in Hafter.
  destruct (Transfer emptyChunk net addr w) as [o w1].
  specialize (IH w1 Hafter).
  destruct (run_transfers emptyChunk rest w1) as [os w2].
  exact IH.
Qed.

(** X3.  After any sequence of [Transfer] calls on an idle session, address and
    connection of the backend belong together: the address is the argument
    of the last call that returned nil and the connection is the one the
    dialer gave that call (both are the initial ones when no call returned
    nil), and [Server] hands out that connection. *)
Theorem backend_is_last_successful_dial
        (emptyChunk : Z -> list Byte.byte) (calls : list (Dialer * string))
        (w : World) :
  idle (sess w) = true ->
  let res := run_transfers emptyChunk calls w in
  serverAddr (sess (snd res))
  = last_successful (serverAddr (sess w)) calls (fst res)
  /\ serverConn (sess (snd res))
     = last_backend (serverConn (sess w)) calls (fst res)
  /\ Server (snd res)
     = (Returned (last_backend (serverConn (sess w)) calls (fst res)),
        snd res).
Proof.
  intros Hidle res. subst res.
  pose proof (run_transfers_serverAddr emptyChunk calls w) as Haddr.
  pose proof (run_transfers_serverConn emptyChunk calls w) as Hconn.
  pose proof (run_transfers_idle emptyChunk calls w Hidle) as Hafter.
  split; [exact Haddr|]. split; [exact Hconn|].
  rewrite <- Hconn. now apply Server_idle.
Qed.

Lemma backend_is_last_successful_dial_witness :
  let res :=
    run_transfers Sample.ec
      [(Sample.net, "B"); (Sample.unreachable, "A"); (Sample.net, "C")]
      Sample.started in
  serverAddr (sess (snd res)) = "B"
  /\ serverConn (sess (snd res)) = Some Sample.connB
  /\ fst (Server (snd res)) = Returned (Some Sample.connB).
Proof.
  destruct (backend_is_last_successful_dial
              Sample.ec
              [(Sample.net, "B"); (Sample.unreachable, "A"); (Sample.net, "C")]
              Sample.started eq_refl)
    as (Haddr & Hconn & Hserver).
  split; [|split].
  - etransitivity; [exact Haddr|]. vm_compute. reflexivity.
  - etransitivity; [exact Hconn|]. vm_compute. reflexivity.
  - rewrite Hserver. vm_compute. reflexivity.
Defined.

(** ** Which backend connections get closed *)

Lemma Transfer_cases (emptyChunk : Z -> list Byte.byte) net addr w :
  Transfer emptyChunk net addr w = (Returned (Some ErrAlreadyTransferring), w)
  \/ Transfer emptyChunk net addr w
     = (Blocked,
        {| sess := with_waiting_writer (with_transferring true (sess w));
           trace := trace w |})
  \/ (idle (sess w) = true
      /\ Transfer emptyChunk net addr w
         = transfer_body_spec emptyChunk net addr w).
Proof.
  destruct (transferring (sess w)) eqn:Hflag.
  - left. now apply Transfer_rejected.
  - destruct (rw_free (serverMu (sess w))) eqn:Hmu.
    + right. right.
      assert (Hidle : idle (sess w) = true)
        by (unfold idle; now rewrite Hflag, Hmu).
      split; [exact Hidle|now apply Transfer_idle].
    + right. left. now apply Transfer_blocked.
Qed.

Lemma closed_conns_app (l1 l2 : list event) :
  closed_conns (l1 ++ l2) = closed_conns l1 ++ closed_conns l2.
Proof. apply flat_map_app. Qed.

Lemma published_conns_app (l1 l2 : list event) :
  published_conns (l1 ++ l2) = published_conns l1 ++ published_conns l2.
Proof. apply flat_map_app. Qed.

Lemma closed_conns_writes (l : list Packet) :
  closed_conns (map EvWritePacket l) = [].
Proof. induction l as [|pk l IH]; [reflexivity|exact IH]. Qed.

Lemma published_conns_writes (l : list Packet) :
  published_conns (map EvWritePacket l) = [].
Proof. induction l as [|pk l IH]; [reflexivity|exact IH]. Qed.

Lemma success_trace_conns (emptyChunk : Z -> list Byte.byte) s addr conn old :
  closed_conns (transfer_success_trace emptyChunk s addr conn old) = [old]
  /\ published_conns (transfer_success_trace emptyChunk s addr conn old)
     = [conn].
Proof.
  unfold transfer_success_trace.
  rewrite !closed_conns_app, !published_conns_app.
  rewrite !closed_conns_writes, !published_conns_writes.
  split; reflexivity.
Qed.

Lemma panic_trace_conns (emptyChunk : Z -> list Byte.byte) s addr conn :
  closed_conns (transfer_panic_trace emptyChunk s addr conn) = []
  /\ published_conns (transfer_panic_trace emptyChunk s addr conn) = [].
Proof.
  unfold transfer_panic_trace.
  rewrite !closed_conns_app, !published_conns_app.
  rewrite !closed_conns_writes, !published_conns_writes.
  split; reflexivity.
Qed.

Lemma close_trace_conns (s : Session) :
  closed_conns (close_trace s)
  = match serverConn s with Some c => [c] | None => [] end
  /\ published_conns (close_trace s) = [].
Proof. unfold close_trace. destruct (serverConn s); split; reflexivity. Qed.

(** On a session that is open and has a backend connection, the connections
    published so far are the ones closed so far followed by the current
    one; a [Transfer] keeps it that way, however it ends. *)
Lemma Transfer_keeps_backends_paired
      (emptyChunk : Z -> list Byte.byte) net addr w cur :
  once (sess w) = false ->
  serverConn (sess w) = Some cur ->
  published_conns (trace w) = closed_conns (trace w) ++ [cur] ->
  let w' := snd (Transfer emptyChunk net addr w) in
  once (sess w') = false
  /\ exists cur',
      serverConn (sess w') = Some cur'
      /\ published_conns (trace w') = closed_conns (trace w') ++ [cur'].
Proof.
  intros Honce Hcur Hpair w'. subst w'.
  destruct (Transfer_cases emptyChunk net addr w) as [H|[H|[_ H]]];
    rewrite H; cbn [snd sess trace].
  - split; [exact Honce|]. now exists cur.
  - split; [exact Honce|]. now exists cur.
  - unfold transfer_body_spec. rewrite Hcur.
    destruct (net addr) as [err|conn]; cbn [snd sess trace].
    + split; [exact Honce|]. exists cur. split; [exact Hcur|].
      rewrite closed_conns_app, published_conns_app, Hpair.
      cbn. now rewrite !app_nil_r.
    + split; [exact Honce|]. exists conn. split; [reflexivity|].
      destruct (success_trace_conns emptyChunk (sess w) addr conn cur)
        as [Hc Hp].
      rewrite closed_conns_app, published_conns_app, Hc, Hp, Hpair.
      now rewrite <- app_assoc.
Qed.

(** X5.  Start a session successfully, transfer it any number of times, close
    it: the backend connections closed are exactly the ones that were
    published in the backend field, in the same order, the last of them by
    [Close].  Each successful transfer closes the connection it replaces,
    and no published connection is left open. *)
Theorem published_backends_are_closed_in_order
        (emptyChunk : Z -> list Byte.byte) (clientConn : ClientConn)
        (addr0 : string) (latencyInterval : Z) (net0 : Dialer)
        (startGame : GameData -> option error)
        (calls : list (Dialer * string)) :
  startup_fails net0 startGame addr0 = false ->
  let r := NewSession clientConn addr0 latencyInterval in
  let w0 := snd (newGoroutine r net0 startGame (fresh_world r)) in
  let w1 := snd (run_transfers emptyChunk calls w0) in
  let w2 := snd (Close w1) in
  (exists cur,
      serverConn (sess w1) = Some cur
      /\ published_conns (trace w1) = closed_conns (trace w1) ++ [cur])
  /\ closed_conns (trace w2) = published_conns (trace w2).
Proof.
  intros Hok r w0 w1 w2.
  assert (Hstart : once (sess w0) = false
                   /\ exists cur,
                       serverConn (sess w0) = Some cur
                       /\ published_conns (trace w0)
                          = closed_conns (trace w0) ++ [cur]).
  { subst w0 r. unfold NewSession, fresh_world, startup_fails in *.
    cbn [newGoroutine newSession].
    destruct (net0 addr0) as [err|conn] eqn:Hnet; [discriminate|].
    destruct (startGame (connGameData conn)) as [err|] eqn:Hgame;
      [discriminate|].
    erewrite startup_success by eassumption. cbn [snd sess trace].
    split; [reflexivity|]. exists conn. split; [reflexivity|].
    rewrite !closed_conns_app, !published_conns_app.
    rewrite closed_conns_writes, published_conns_writes. reflexivity. }
  assert (Hrun : forall cs w,
             (once (sess w) = false
              /\ exists cur,
                  serverConn (sess w) = Some cur
                  /\ published_conns (trace w)
                     = closed_conns (trace w) ++ [cur]) ->
             once (sess (snd (run_transfers emptyChunk cs w))) = false
             /\ exists cur,
                 serverConn (sess (snd (run_transfers emptyChunk cs w)))
                 = Some cur
                 /\ published_conns
                      (trace (snd (run_transfers emptyChunk cs w)))
                    = closed_conns
                        (trace (snd (run_transfers emptyChunk cs w)))
                        ++ [cur]).
  { induction cs as [|[net addr] rest IH]; intros w Hw; [exact Hw|].
    destruct Hw as (Honce & cur & Hcur & Hpair).
    pose proof (Transfer_keeps_backends_paired
                  emptyChunk net addr w cur Honce Hcur Hpair) as Hnext.
    cbn zeta in Hnext. cbn [run_transfers].
    destruct (Transfer emptyChunk net addr w) as [o w'].
    specialize (IH w' Hnext).
    destruct (run_transfers emptyChunk rest w') as [os w''].
    exact IH. }
  destruct (Hrun calls w0 Hstart) as (Honce & cur & Hcur & Hpair).
  fold w1 in Honce, Hcur, Hpair.
  split; [now exists cur|].
  subst w2. destruct w1 as [s tr]. cbn [sess trace] in *.
  rewrite Close_run, Honce. cbn [snd trace].
  destruct (close_trace_conns s) as [Hc Hp].
  rewrite closed_conns_app, published_conns_app, Hc, Hp, Hcur, Hpair.
  now rewrite app_nil_r.
Qed.

Lemma published_backends_are_closed_in_order_witness :
  let w1 :=
    snd (run_transfers Sample.ec
           [(Sample.net, "B"); (Sample.unreachable, "A"); (Sample.net, "A")]
           Sample.started) in
  published_conns (trace w1) = [Sample.connA; Sample.connB; Sample.connA]
  /\ closed_conns (trace (snd (Close w1)))
     = published_conns (trace (snd (Close w1))).
Proof.
  destruct (published_backends_are_closed_in_order
              Sample.ec Sample.client "A" 50 Sample.net Sample.accept
              [(Sample.net, "B"); (Sample.unreachable, "A"); (Sample.net, "A")]
              eq_refl)
    as [_ Hall].
  split; [vm_compute; reflexivity|exact Hall].
Defined.

(** ** [Transfer] outside an open session with a backend *)

(** X6.  [Transfer] does not look at the close guard.  Called on a session that
    [Close] has shut down, with a backend that answers the dial, it runs the
    whole sequence and returns nil: the connection [Close] had closed is
    closed a second time and the new connection is published, and since the
    guard has fired no later [Close] or [Disconnect] closes it. *)
Theorem Transfer_after_Close_publishes_unclosed_backend
        (emptyChunk : Z -> list Byte.byte) (net : Dialer) (addr : string)
        (conn old : Conn) (later : list closer) (w : World) :
  idle (sess w) = true ->
  once (sess w) = false ->
  serverConn (sess w) = Some old ->
  net addr = inr conn ->
  let w1 := snd (Close w) in
  let res := Transfer emptyChunk net addr w1 in
  let w3 := snd (forM_ later run_closer (snd res)) in
  fst res = Returned None
  /\ serverConn (sess w3) = Some conn
  /\ serverAddr (sess w3) = addr
  /\ exists delta,
      trace w3 = trace w ++ delta
      /\ closed_conns delta = [old; old]
      /\ published_conns delta = [conn]
      /\ countb is_client_close delta = 1%nat.
Proof.
  intros Hidle Honce Hold Hnet w1 res w3. subst w3 res w1.
  destruct w as [s tr]. cbn [sess trace] in *.
  rewrite Close_run, Honce. cbn [snd].
  rewrite Transfer_idle by exact Hidle.
  unfold transfer_body_spec. cbn [sess trace with_once serverConn].
  rewrite Hnet, Hold. cbn [fst snd].
  rewrite closers_after_close by reflexivity. cbn [snd sess trace].
  split; [reflexivity|]. split; [reflexivity|]. split; [reflexivity|].
  eexists. split; [rewrite <- !app_assoc; reflexivity|].
  destruct (close_trace_conns s) as [Hc Hp].
  destruct (success_trace_conns emptyChunk (with_once true s) addr conn old)
    as [Hc' Hp'].
  destruct (close_trace_counts s) as (Hcc & _ & _).
  rewrite !closed_conns_app, !published_conns_app, !countb_app.
  rewrite Hc, Hp, Hc', Hp', Hcc, Hold.
  assert (Hn : closed_conns (flat_map disconnect_notice later) = []
               /\ published_conns (flat_map disconnect_notice later) = []).
  { induction later as [|[|m] later IH]; cbn; auto. }
  destruct Hn as [Hn1 Hn2]. rewrite Hn1, Hn2.
  rewrite countb_notices by reflexivity.
  split; [reflexivity|]. split; [reflexivity|].
  unfold transfer_success_trace.
  repeat (rewrite ?countb_app, ?countb_cons).
  rewrite !countb_writes by reflexivity. reflexivity.
Qed.

Lemma Transfer_after_Close_publishes_unclosed_backend_witness :
  let w1 := snd (Close Sample.started) in
  let res := Transfer Sample.ec Sample.net "B" w1 in
  let w3 := snd (forM_ [ViaClose; ViaDisconnect "bye"] run_closer (snd res)) in
  fst res = Returned None
  /\ serverConn (sess w3) = Some Sample.connB
  /\ closed_conns (trace w3) = [Sample.connA; Sample.connA].
Proof.
  destruct (Transfer_after_Close_publishes_unclosed_backend
              Sample.ec Sample.net "B" Sample.connB Sample.connA
              [ViaClose; ViaDisconnect "bye"] Sample.started
              eq_refl eq_refl eq_refl eq_refl)
    as (Hret & Hconn & _ & _).
  split; [exact Hret|]. split; [exact Hconn|].
  vm_compute. reflexivity.
Defined.

(** X7.  A [Transfer] on a session without a backend connection (its initial dial
    failed, or has not finished) whose own dial succeeds does not return:
    after the whole reset sequence has been sent to the client, closing the
    absent previous connection is a nil dereference.  Nothing is published,
    the dialled connection is not closed, and the deferred function still
    clears the flag and releases the lock. *)
Theorem Transfer_without_backend_panics
        (emptyChunk : Z -> list Byte.byte) (net : Dialer) (addr : string)
        (conn : Conn) (w : World) :
  idle (sess w) = true ->
  serverConn (sess w) = None ->
  net addr = inr conn ->
  exists delta,
    Transfer emptyChunk net addr w
    = (Panicked nil_dereference,
       {| sess := sess w; trace := trace w ++ delta |})
    /\ countb is_tracker delta = 5%nat
    /\ (List.length (chunk_flood emptyChunk (connGameData conn))
        <= countb is_write delta)%nat
    /\ closed_conns delta = []
    /\ published_conns delta = []
    /\ exists before,
        delta = before ++ [EvAnimationClear (connGameData conn)].
Proof.
  intros Hidle Hnil Hnet.
  exists (transfer_panic_trace emptyChunk (sess w) addr conn).
  split.
  { rewrite Transfer_idle by exact Hidle.
    unfold transfer_body_spec. now rewrite Hnet, Hnil. }
  destruct (panic_trace_conns emptyChunk (sess w) addr conn) as [Hc Hp].
  split.
  { unfold transfer_panic_trace.
    repeat (rewrite ?countb_app, ?countb_cons).
    rewrite !countb_writes by reflexivity. reflexivity. }
  split.
  { unfold transfer_panic_trace.
    repeat (rewrite ?countb_app, ?countb_cons).
    assert (Hw : countb is_write
                   (map EvWritePacket
                        (chunk_flood emptyChunk (connGameData conn)))
                 = List.length (chunk_flood emptyChunk (connGameData conn))).
    { induction (chunk_flood emptyChunk (connGameData conn)) as [|pk l IH];
        [reflexivity|].
      cbn [map List.length]. rewrite countb_cons, IH. reflexivity. }
    rewrite Hw. lia. }
  split; [exact Hc|]. split; [exact Hp|].
  unfold transfer_panic_trace. eexists. rewrite !app_assoc. reflexivity.
Qed.

Lemma Transfer_without_backend_panics_witness :
  let failed :=
    snd (newGoroutine (NewSession Sample.client "A" 50) Sample.unreachable
                      Sample.accept Sample.created) in
  let res := Transfer Sample.ec Sample.net "B" failed in
  fst res = Panicked nil_dereference
  /\ sess (snd res) = sess failed
  /\ closed_conns (trace (snd res)) = [].
Proof.
  destruct (Transfer_without_backend_panics
              Sample.ec Sample.net "B" Sample.connB
              (snd (newGoroutine (NewSession Sample.client "A" 50)
                                 Sample.unreachable Sample.accept
                                 Sample.created))
              eq_refl eq_refl eq_refl)
    as (delta & Hrun & _ & _ & Hclosed & _).
  cbn zeta. rewrite Hrun. cbn [fst snd sess trace].
  split; [reflexivity|]. split; [reflexivity|].
  rewrite closed_conns_app, Hclosed. vm_compute. reflexivity.
Defined.

(** ** What a successful transfer and a disconnect write *)

(** X8.  A [Transfer] that returns nil writes one metadata packet of its own, the
    suppressing one: of what it writes before flushing the backend's
    deferred packets, the only [SetActorData] is the one with the no-AI
    flag, and the restoring packet of the failure path is not among it. *)
Theorem successful_Transfer_sends_no_restoring_metadata
        (emptyChunk : Z -> list Byte.byte) (net : Dialer) (addr : string)
        (w w' : World) :
  Transfer emptyChunk net addr w = (Returned None, w') ->
  exists conn own,
    net addr = inr conn
    /\ trace w'
       = trace w ++ own ++ map EvWritePacket (ReadDeferred conn)
                ++ [transfer_log (sess w) addr]
    /\ filter is_set_actor_data own = [suppress_metadata (sess w)]
    /\ ~ In (restore_metadata (sess w)) own.
Proof.
  intros Hrun.
  destruct (Transfer_returns_nil emptyChunk net addr w w' Hrun)
    as (conn & old & Hnet & _ & _ & Htrace).
  exists conn.
  exists ([suppress_metadata (sess w); dial_event (sess w) addr;
           EvAnimationPlay (connGameData conn)]
            ++ map EvWritePacket (chunk_flood emptyChunk (connGameData conn))
            ++ tracker_clears ++ world_reset (connGameData conn)
            ++ [EvAnimationClear (connGameData conn); EvServerClose old;
                EvSetServerAddr addr; EvSetServerConn (Some conn)]).
  split; [exact Hnet|].
  split.
  { rewrite Htrace. unfold transfer_success_trace.
    rewrite <- !app_assoc. reflexivity. }
  assert (Hfilter :
            filter is_set_actor_data
              ([suppress_metadata (sess w); dial_event (sess w) addr;
                EvAnimationPlay (connGameData conn)]
                 ++ map EvWritePacket
                      (chunk_flood emptyChunk (connGameData conn))
                 ++ tracker_clears ++ world_reset (connGameData conn)
                 ++ [EvAnimationClear (connGameData conn); EvServerClose old;
                     EvSetServerAddr addr; EvSetServerConn (Some conn)])
            = [suppress_metadata (sess w)]).
  { rewrite !filter_app.
    assert (Hflood :
              filter is_set_actor_data
                (map EvWritePacket
                     (chunk_flood emptyChunk (connGameData conn))) = []).
    { rewrite chunk_flood_square, map_map.
      induction (chunk_square _ _ _) as [|p l IH]; [reflexivity|exact IH]. }
    rewrite Hflood. reflexivity. }
  split; [exact Hfilter|].
  intros Hin.
  assert (Hin' : In (restore_metadata (sess w))
                    [suppress_metadata (sess w)]).
  { rewrite <- Hfilter. apply filter_In. split; [exact Hin|reflexivity]. }
  destruct Hin' as [Heq|[]]. discriminate Heq.
Qed.

Lemma successful_Transfer_sends_no_restoring_metadata_witness :
  exists w' own,
    Transfer Sample.ec Sample.net "B" Sample.started = (Returned None, w')
    /\ trace w'
       = trace Sample.started ++ own
           ++ map EvWritePacket (ReadDeferred Sample.connB)
           ++ [transfer_log (sess Sample.started) "B"]
    /\ filter is_set_actor_data own
       = [suppress_metadata (sess Sample.started)].
Proof.
  destruct (successful_Transfer_sends_no_restoring_metadata
              Sample.ec Sample.net "B" Sample.started
              (snd (Transfer Sample.ec Sample.net "B" Sample.started)))
    as (conn & own & Hnet & Htrace & Hfilter & _).
  - vm_compute. reflexivity.
  - injection Hnet as <-.
    exists (snd (Transfer Sample.ec Sample.net "B" Sample.started)), own.
    split; [vm_compute; reflexivity|]. split; assumption.
Defined.

(** X4.  [Disconnect] writes its notice first and then closes: on an open
    session the notice is followed by the teardown, so that nothing is
    written to the client after its connection was closed; on a closed
    session the notice is still written (to the closed connection) and
    nothing else happens. *)
Theorem Disconnect_writes_notice_then_closes :
  (forall (message : string) (w : World),
      once (sess w) = false ->
      Disconnect message w
      = (Returned tt,
         {| sess := with_once true (sess w);
            trace := trace w
                       ++ EvWritePacket (packet.Disconnect message)
                       :: close_trace (sess w) |})
      /\ countb is_write (close_trace (sess w)) = 0%nat)
  /\ (forall (message : string) (w : World),
         once (sess w) = true ->
         Disconnect message w
         = (Returned tt,
            {| sess := sess w;
               trace := trace w
                          ++ [EvWritePacket (packet.Disconnect message)] |})).
Proof.
  split.
  - intros message [s tr] Honce. cbn [sess trace] in *. split.
    + exact (closer_first (ViaDisconnect message) s tr Honce).
    + unfold close_trace. destruct (serverConn s); reflexivity.
  - intros message w Honce.
    pose proof (closers_after_close [ViaDisconnect message] w Honce) as H.
    cbn [forM_ flat_map disconnect_notice app] in H.
    unfold bind in H. cbn [run_closer] in H.
    destruct (Disconnect message w) as [[u|msg|] w1]; cbn [ret] in H.
    + destruct u. exact H.
    + discriminate H.
    + discriminate H.
Qed.

Lemma Disconnect_writes_notice_then_closes_witness :
  trace (snd (Disconnect "kicked" Sample.started))
  = trace Sample.started
      ++ [EvWritePacket (packet.Disconnect "kicked"); EvClientClose;
          EvServerClose Sample.connA; EvRemoveSession "2535416";
          EvLog LvlInfo "Closed session for Steve"]
  /\ trace (snd (Disconnect "again" (snd (Disconnect "kicked" Sample.started))))
     = trace (snd (Disconnect "kicked" Sample.started))
         ++ [EvWritePacket (packet.Disconnect "again")].
Proof.
  destruct Disconnect_writes_notice_then_closes as (Hopen & Hclosed).
  split.
  - destruct (Hopen "kicked" Sample.started eq_refl) as [Hrun _].
    rewrite Hrun. reflexivity.
  - rewrite (Hclosed "again" (snd (Disconnect "kicked" Sample.started))
                     eq_refl).
    reflexivity.
Defined.

(** ** A startup that succeeds *)

(** X1.  When the dial and the start-game relay succeed, the goroutine of a
    new session returns with the session open and idle on the dialled
    backend, the client connection holding the backend's start state as its
    game data.  Its trace is: the dial, the two stores, the start-game
    relay, the suppressing metadata packet addressed to the runtime id of
    that start state, the backend's deferred packets in their order, the
    three goroutines, the registration under the client's XUID, and the log
    entry.  The registration is the only one and comes after every packet
    written to the client. *)
Theorem startup_registers_after_initial_packets
        (clientConn0 : ClientConn) (addr : string) (latencyInterval : Z)
        (net : Dialer) (startGame : GameData -> option error) (conn : Conn) :
  net addr = inr conn ->
  startGame (connGameData conn) = None ->
  let r := NewSession clientConn0 addr latencyInterval in
  let res := newGoroutine r net startGame (fresh_world r) in
  fst res = Returned tt
  /\ sess (snd res) = started_on conn addr (newSession r)
  /\ clientGameData (clientConn (sess (snd res))) = connGameData conn
  /\ idle (sess (snd res)) = true
  /\ once (sess (snd res)) = false
  /\ trace (snd res)
     = [dial_event (newSession r) addr; EvSetServerAddr addr;
        EvSetServerConn (Some conn); EvStartGame (connGameData conn);
        EvWritePacket
          (packet.SetActorData
             (EntityRuntimeID (connGameData conn))
             [EntityDataFlagNoAI; EntityDataFlagBreathing;
              EntityDataFlagHasGravity])]
         ++ map EvWritePacket (ReadDeferred conn)
         ++ [EvGo handleIncoming; EvGo handleOutgoing;
             EvGo (handleLatency latencyInterval);
             EvAddSession (XUID (clientIdentity clientConn0));
             EvLog LvlInfo
               ("Successfully started session for "
                  ++ DisplayName (clientIdentity clientConn0))%string]
  /\ countb is_add_session (trace (snd res)) = 1%nat
  /\ countb is_go (trace (snd res)) = 3%nat
  /\ countb is_write (trace (snd res))
     = S (List.length (ReadDeferred conn))
  /\ countb is_client_close (trace (snd res)) = 0%nat.
Proof.
  intros Hnet Hgame r res. subst res r.
  unfold NewSession, fresh_world. cbn [newGoroutine newSession].
  erewrite startup_success by eassumption. cbn [fst snd sess trace app].
  split; [reflexivity|]. split; [reflexivity|]. split; [reflexivity|].
  split; [reflexivity|]. split; [reflexivity|]. split; [reflexivity|].
  assert (Hw : countb is_write (map EvWritePacket (ReadDeferred conn))
               = List.length (ReadDeferred conn)).
  { induction (ReadDeferred conn) as [|pk l IH]; [reflexivity|].
    cbn [map List.length]. rewrite countb_cons, IH. reflexivity. }
  repeat (rewrite ?countb_app, ?countb_cons).
  rewrite Hw. rewrite !countb_writes by reflexivity.
  cbn. repeat split; lia.
Qed.

Lemma startup_registers_after_initial_packets_witness :
  let res := newGoroutine (NewSession Sample.client "B" 50) Sample.net
                          Sample.accept
                          (fresh_world (NewSession Sample.client "B" 50)) in
  EntityRuntimeID (clientGameData Sample.client) = 7
  /\ In (EvWritePacket
           (packet.SetActorData
              12 [EntityDataFlagNoAI; EntityDataFlagBreathing;
                  EntityDataFlagHasGravity]))
        (trace (snd res))
  /\ countb is_add_session (trace (snd res)) = 1%nat
  /\ countb is_write (trace (snd res)) = 3%nat.
Proof.
  destruct (startup_registers_after_initial_packets
              Sample.client "B" 50 Sample.net Sample.accept Sample.connB
              eq_refl eq_refl)
    as (_ & _ & _ & _ & _ & Htrace & Hadd & _ & Hwrites & _).
  cbn zeta. split; [reflexivity|]. split.
  - rewrite Htrace. cbn. do 4 right. left. reflexivity.
  - split; [exact Hadd|exact Hwrites].
Defined.

(** ** Any sequence of public calls *)

Lemma dial_from_writes (cc : ClientConn) (l : list Packet) :
  Forall (dial_from cc) (map EvWritePacket l).
Proof.
  apply Forall_forall. intros e Hin.
  apply in_map_iff in Hin as (pk & <- & _). exact I.
Qed.

Ltac quiet_counts :=
  repeat (rewrite ?countb_app, ?countb_cons);
  rewrite ?countb_writes by reflexivity;
  cbn in *; lia.

Ltac dials_from :=
  repeat first
         [ apply Forall_nil
         | apply dial_from_writes
         | apply Forall_app; split
         | apply Forall_cons; [first [exact I | split; reflexivity]|] ].

Lemma transfer_body_spec_consistent
      (emptyChunk : Z -> list Byte.byte) net addr cc w :
  consistent cc w ->
  consistent cc (snd (transfer_body_spec emptyChunk net addr w)).
Proof.
  unfold consistent.
  intros (Hcc & Hidle & Hclose & Hremove & Hadd & Hdials).
  unfold transfer_body_spec.
  destruct (net addr) as [err|conn];
    [|destruct (serverConn (sess w)) as [old|]];
    cbn [snd sess trace clientConn once with_serverConn with_serverAddr];
    (split; [exact Hcc|]); (split; [exact Hidle|]).
  - unfold transfer_failure_trace.
    split; [quiet_counts|]. split; [quiet_counts|]. split; [quiet_counts|].
    apply Forall_app. split; [exact Hdials|].
    subst cc. unfold dial_event. dials_from.
  - unfold transfer_success_trace, tracker_clears, world_reset.
    split; [quiet_counts|]. split; [quiet_counts|]. split; [quiet_counts|].
    apply Forall_app. split; [exact Hdials|].
    subst cc. unfold dial_event. dials_from.
  - unfold transfer_panic_trace, tracker_clears, world_reset.
    split; [quiet_counts|]. split; [quiet_counts|]. split; [quiet_counts|].
    apply Forall_app. split; [exact Hdials|].
    subst cc. unfold dial_event. dials_from.
Qed.

Lemma run_call_consistent
      (emptyChunk : Z -> list Byte.byte) (c : call) cc w :
  consistent cc w -> consistent cc (run_call emptyChunk c w).
Proof.
  intros Hw. destruct c as [net addr| |message|]; cbn [run_call].
  - assert (Hidle : idle (sess w) = true) by apply Hw.
    rewrite Transfer_idle by exact Hidle.
    now apply transfer_body_spec_consistent.
  - destruct w as [s tr]. rewrite Close_run. cbn [snd].
    unfold consistent in *. cbn [sess trace] in *.
    destruct Hw as (Hcc & Hidle & Hclose & Hremove & Hadd & Hdials).
    destruct (once s) eqn:Honce.
    + rewrite app_nil_r, Honce. repeat split; assumption.
    + split; [exact Hcc|]. split; [exact Hidle|].
      unfold close_trace.
      split; [destruct (serverConn s); quiet_counts|].
      split; [destruct (serverConn s); quiet_counts|].
      split; [destruct (serverConn s); quiet_counts|].
      apply Forall_app. split; [exact Hdials|].
      destruct (serverConn s); dials_from.
  - destruct w as [s tr]. unfold Disconnect. run. rewrite Close_run.
    cbn [snd once sess trace].
    unfold consistent in *. cbn [sess trace] in *.
    destruct Hw as (Hcc & Hidle & Hclose & Hremove & Hadd & Hdials).
    destruct (once s) eqn:Honce.
    + rewrite app_nil_r, Honce.
      split; [exact Hcc|]. split; [exact Hidle|].
      split; [quiet_counts|]. split; [quiet_counts|]. split; [quiet_counts|].
      apply Forall_app. split; [exact Hdials|]. dials_from.
    + split; [exact Hcc|]. split; [exact Hidle|].
      unfold close_trace.
      split; [destruct (serverConn s); quiet_counts|].
      split; [destruct (serverConn s); quiet_counts|].
      split; [destruct (serverConn s); quiet_counts|].
      apply Forall_app. split.
      * apply Forall_app. split; [exact Hdials|]. dials_from.
      * destruct (serverConn s); dials_from.
  - rewrite Server_idle by apply Hw. exact Hw.
Qed.

Lemma run_calls_consistent
      (emptyChunk : Z -> list Byte.byte) (cs : list call) cc :
  forall w, consistent cc w -> consistent cc (run_calls emptyChunk cs w).
Proof.
  unfold run_calls. induction cs as [|c cs IH]; intros w Hw; [exact Hw|].
  cbn [fold_left]. apply IH. now apply run_call_consistent.
Qed.

Lemma startup_consistent clientConn0 addr latencyInterval net startGame :
  let r := NewSession clientConn0 addr latencyInterval in
  let w0 := snd (newGoroutine r net startGame (fresh_world r)) in
  consistent (clientConn (sess w0)) w0
  /\ RemoteAddr (clientConn (sess w0)) = RemoteAddr clientConn0
  /\ clientIdentity (clientConn (sess w0)) = clientIdentity clientConn0
  /\ clientGameData (clientConn (sess w0))
     = match net addr with
       | inr conn => connGameData conn
       | inl _ => clientGameData clientConn0
       end.
Proof.
  intros r w0. subst w0 r. unfold NewSession, fresh_world.
  cbn [newGoroutine newSession]. unfold consistent.
  destruct (net addr) as [err|conn] eqn:Hnet.
  - erewrite startup_dial_failure by (try eassumption; reflexivity).
    cbn [snd sess trace]. unfold close_trace.
    cbn [serverConn with_serverConn].
    split; [|repeat split].
    split; [reflexivity|]. split; [reflexivity|].
    split; [reflexivity|]. split; [reflexivity|]. split; [cbn; lia|].
    unfold dial_event. cbn [app]. dials_from.
  - destruct (startGame (connGameData conn)) as [err|] eqn:Hgame.
    + erewrite startup_game_failure by (try eassumption; reflexivity).
      cbn [snd sess trace]. unfold close_trace, started_on.
      cbn [serverConn with_clientGameData with_serverConn].
      split; [|repeat split].
      split; [reflexivity|]. split; [reflexivity|].
      split; [reflexivity|]. split; [reflexivity|]. split; [cbn; lia|].
      unfold dial_event. cbn [app]. dials_from.
    + erewrite startup_success by eassumption.
      cbn [snd sess trace].
      split; [|repeat split].
      split; [reflexivity|]. split; [reflexivity|].
      split; [quiet_counts|]. split; [quiet_counts|]. split; [quiet_counts|].
      unfold dial_event. cbn [app]. dials_from.
Qed.

(** X9.  Start a session for a client connection and make any sequence of
    [Transfer], [Close], [Disconnect] and [Server] calls on it, one after
    the other, whatever the network answers.  The calls leave the client
    connection as the startup left it: its remote address and identity are
    those of the connection given to [NewSession], and its game data is the
    start state of the backend the startup dialled (the original one when
    that dial failed).  Neither the transferring flag nor the lock is left
    held, the client connection was closed and the session removed from the
    registry once if the session is closed and never otherwise, the session
    was registered at most once, and every dial in the history carries the
    client's remote address and identity. *)
Theorem public_calls_keep_session_consistent
        (emptyChunk : Z -> list Byte.byte) (clientConn0 : ClientConn)
        (addr0 : string) (latencyInterval : Z) (net0 : Dialer)
        (startGame : GameData -> option error) (cs : list call) :
  let r := NewSession clientConn0 addr0 latencyInterval in
  let w0 := snd (newGoroutine r net0 startGame (fresh_world r)) in
  let w := run_calls emptyChunk cs w0 in
  clientConn (sess w) = clientConn (sess w0)
  /\ RemoteAddr (clientConn (sess w)) = RemoteAddr clientConn0
  /\ clientIdentity (clientConn (sess w)) = clientIdentity clientConn0
  /\ clientGameData (clientConn (sess w))
     = match net0 addr0 with
       | inr conn => connGameData conn
       | inl _ => clientGameData clientConn0
       end
  /\ transferring (sess w) = false
  /\ rw_free (serverMu (sess w)) = true
  /\ countb is_client_close (trace w) = b2n (once (sess w))
  /\ countb is_remove_session (trace w) = b2n (once (sess w))
  /\ (countb is_add_session (trace w) <= 1)%nat
  /\ Forall (dial_from clientConn0) (trace w).
Proof.
  intros r w0 w.
  destruct (startup_consistent clientConn0 addr0 latencyInterval net0
                               startGame)
    as (Hstart & Haddr & Hid & Hgd).
  fold r in Hstart, Haddr, Hid, Hgd. fold w0 in Hstart, Haddr, Hid, Hgd.
  pose proof (run_calls_consistent emptyChunk cs _ _ Hstart) as Hall.
  fold w in Hall.
  destruct Hall as (Hcc & Hidle & Hclose & Hremove & Hadd & Hdials).
  unfold idle in Hidle. apply andb_true_iff in Hidle as [Hflag Hmu].
  apply negb_true_iff in Hflag.
  split; [exact Hcc|]. rewrite Hcc.
  split; [exact Haddr|]. split; [exact Hid|]. split; [exact Hgd|].
  split; [exact Hflag|]. split; [exact Hmu|]. split; [exact Hclose|].
  split; [exact Hremove|]. split; [exact Hadd|].
  eapply Forall_impl; [|exact Hdials].
  intros e. unfold dial_from. destruct e; try exact (fun H => H).
  rewrite Haddr, Hid. exact (fun H => H).
Qed.

(** ** Progress of concurrent transfers *)

(** X10.  Among concurrent [Transfer] calls on a session that started idle, a call
    that has not returned can take its next step whenever no reader holds
    the lock: the only point where a call waits is [Lock], and the one call
    that can be there finds the lock without a writer.  Transfers do not
    block each other. *)
Theorem pending_Transfer_can_step
        (emptyChunk : Z -> list Byte.byte) (c0 : config) (w : World)
        (ts : list pc) (t : pc) :
  initial c0 ->
  steps emptyChunk c0 (w, ts) ->
  readers (serverMu (sess w)) = 0%nat ->
  In t ts ->
  pending t = true ->
  exists t' w', thread_step emptyChunk t w = Some (t', w').
Proof.
  intros Hinit Hsteps Hreaders Hin Hpending.
  destruct (steps_invariant emptyChunk c0 (w, ts) Hinit Hsteps)
    as (Hflag & Hlock & _ & Hwait).
  cbn [fst snd] in *.
  apply in_split in Hin as (before & after & ->).
  rewrite countb_middle in Hflag, Hlock.
  destruct t as [net addr|net addr|net addr|r|r|r]; cbn [thread_step].
  - unfold CompareAndSwap_false_true.
    destruct (transferring (sess w)); cbn; eauto.
  - assert (Hwr : writer (serverMu (sess w)) = false).
    { pose proof (holds_lock_in_flight before) as Hb.
      pose proof (holds_lock_in_flight after) as Ha.
      destruct (transferring (sess w)), (writer (serverMu (sess w)));
        cbn in *; try reflexivity; lia. }
    unfold Lock, rw_free. rewrite Hwr, Hreaders, Hwait. cbn. eauto.
  - destruct (transfer_body emptyChunk net addr w) as [r w']. eauto.
  - eauto.
  - eauto.
  - discriminate.
Qed.

Lemma pending_Transfer_can_step_witness :
  exists t' w',
    thread_step Sample.ec (AtLock Sample.net "B")
                (snd (CompareAndSwap_false_true Sample.started))
    = Some (t', w').
Proof.
  apply (pending_Transfer_can_step
           Sample.ec
           (Sample.started, [AtCall Sample.net "B"; AtCall Sample.net "A"])
           (snd (CompareAndSwap_false_true Sample.started))
           [AtLock Sample.net "B"; AtCall Sample.net "A"]
           (AtLock Sample.net "B")).
  - split; reflexivity.
  - eapply steps_next; [apply steps_refl|].
    apply (step_thread Sample.ec Sample.started _
                       (AtCall Sample.net "B") (AtLock Sample.net "B")
                       [] [AtCall Sample.net "A"]).
    reflexivity.
  - reflexivity.
  - left. reflexivity.
  - reflexivity.
Defined.

(** ** The flood always covers the player's chunk *)

Lemma quot_between_div (n d : Z) :
  0 < d -> n / d <= Z.quot n d <= n / d + 1.
Proof.
  intros Hd.
  pose proof (Z.div_mod n d ltac:(lia)) as Hdiv.
  pose proof (Z.mod_pos_bound n d Hd) as Hmod.
  pose proof (Z.quot_rem' n d) as Hquot.
  destruct (Z.le_gt_cases 0 n) as [Hn|Hn].
  - rewrite Z.quot_div_nonneg by lia. lia.
  - pose proof (Z.rem_bound_pos_neg n d Hd ltac:(lia)) as Hrem.
    assert (Hk : d * (Z.quot n d - n / d) = n mod d - Z.rem n d) by lia.
    assert (-1 < Z.quot n d - n / d < 2) by nia.
    lia.
Qed.

Lemma shr4_between (a b : Z) :
  a <= b <= a + 1 -> Z.shiftr a 4 <= Z.shiftr b 4 <= Z.shiftr a 4 + 1.
Proof.
  intros Hab. rewrite !Z.shiftr_div_pow2 by lia. change (2 ^ 4) with 16.
  pose proof (Z.div_mod a 16 ltac:(lia)) as Ha.
  pose proof (Z.mod_pos_bound a 16 ltac:(lia)) as Ha'.
  pose proof (Z.div_mod b 16 ltac:(lia)) as Hb.
  pose proof (Z.mod_pos_bound b 16 ltac:(lia)) as Hb'.
  lia.
Qed.

Lemma chunk_of_floor (q : Q) :
  chunk_of q = Z.shiftr (Qnum q / Zpos (Qden q)) 4.
Proof.
  unfold chunk_of. destruct q as [n d]. cbn [Qnum Qden].
  rewrite Z.shiftr_div_pow2 by lia. change (2 ^ 4) with 16.
  unfold Qdiv, Qmult, Qinv, Qfloor. cbn.
  rewrite Z.mul_1_r, Pos2Z.inj_mul.
  rewrite Zdiv_Zdiv by lia. reflexivity.
Qed.

Lemma centre_near_chunk_of (q : Q) :
  Int32.in_range (Int32.truncate q) = true ->
  chunk_of q <= Int32.shr (Int32.of_float32 q) 4 <= chunk_of q + 1.
Proof.
  intros Hr. unfold Int32.of_float32. rewrite Hr.
  rewrite chunk_of_floor. unfold Int32.shr, Int32.truncate.
  apply shr4_between. apply quot_between_div. lia.
Qed.

(** X11.  Whatever the sign of the coordinates (as long as they fit an int32), the
    centre of the flood is the chunk that contains the player's position or
    its neighbour towards zero, so the flood covers that chunk and every
    chunk within three of it. *)
Theorem chunk_flood_covers_player_chunk
        (emptyChunk : Z -> list Byte.byte) (gd : GameData) (x z : Z) :
  Int32.in_range (Int32.truncate (vecX (PlayerPosition gd))) = true ->
  Int32.in_range (Int32.truncate (vecZ (PlayerPosition gd))) = true ->
  chunk_of (vecX (PlayerPosition gd)) - 3 <= x
  <= chunk_of (vecX (PlayerPosition gd)) + 3 ->
  chunk_of (vecZ (PlayerPosition gd)) - 3 <= z
  <= chunk_of (vecZ (PlayerPosition gd)) + 3 ->
  In (packet.LevelChunk packet.DimensionNether (x, z) 1
                        (emptyChunk (Dimension gd)))
     (chunk_flood emptyChunk gd)
  /\ chunk_of (vecX (PlayerPosition gd)) <= fst (flood_centre gd)
     <= chunk_of (vecX (PlayerPosition gd)) + 1
  /\ chunk_of (vecZ (PlayerPosition gd)) <= snd (flood_centre gd)
     <= chunk_of (vecZ (PlayerPosition gd)) + 1.
Proof.
  intros HrX HrZ Hx Hz.
  pose proof (centre_near_chunk_of _ HrX) as HcX.
  pose proof (centre_near_chunk_of _ HrZ) as HcZ.
  split; [|split; assumption].
  rewrite chunk_flood_square. apply in_map_iff.
  exists (x, z). split; [reflexivity|].
  apply chunk_square_In. unfold flood_centre. cbn [fst snd]. lia.
Qed.

Lemma chunk_flood_covers_player_chunk_witness :
  chunk_of (vecX (PlayerPosition Sample.nether)) = -1
  /\ fst (flood_centre Sample.nether) = 0
  /\ In (packet.LevelChunk packet.DimensionNether (-1, 2) 1 [])
        (chunk_flood Sample.ec Sample.nether)
  /\ In (packet.LevelChunk packet.DimensionNether (-4, 5) 1 [])
        (chunk_flood Sample.ec Sample.nether).
Proof.
  split; [reflexivity|]. split; [reflexivity|]. split.
  - apply (chunk_flood_covers_player_chunk Sample.ec Sample.nether (-1) 2);
      [reflexivity|reflexivity|vm_compute; split; discriminate
      |vm_compute; split; discriminate].
  - apply (chunk_flood_covers_player_chunk Sample.ec Sample.nether (-4) 5);
      [reflexivity|reflexivity|vm_compute; split; discriminate
      |vm_compute; split; discriminate].
Defined.

(** ** A transfer that waits for the lock *)

(** X12.  The flag is taken before the lock.  A [Transfer] that finds the
    flag clear but the lock held (by a reader, say) waits with the flag
    already set, its claim on the lock announced, and nothing written or
    dialled; a [Transfer] called meanwhile is rejected with "already
    transferring" instead of queueing behind it, and a [Server] called
    meanwhile waits behind the announced writer. *)
Theorem waiting_Transfer_rejects_others
        (emptyChunk : Z -> list Byte.byte) (net net' : Dialer)
        (addr addr' : string) (w : World) :
  transferring (sess w) = false ->
  rw_free (serverMu (sess w)) = false ->
  let res := Transfer emptyChunk net addr w in
  fst res = Blocked
  /\ trace (snd res) = trace w
  /\ sess (snd res) = with_waiting_writer (with_transferring true (sess w))
  /\ transferring (sess (snd res)) = true
  /\ Transfer emptyChunk net' addr' (snd res)
     = (Returned (Some ErrAlreadyTransferring), snd res)
  /\ Server (snd res) = (Blocked, snd res).
Proof.
  intros Hflag Hmu res. subst res.
  rewrite Transfer_blocked by assumption. cbn [fst snd sess trace].
  split; [reflexivity|]. split; [reflexivity|]. split; [reflexivity|].
  split; [reflexivity|]. split; [now apply Transfer_rejected|].
  unfold Server. cbn. now rewrite orb_true_r.
Qed.

Lemma waiting_Transfer_rejects_others_witness :
  let res := Transfer Sample.ec Sample.net "B" (RLock Sample.started) in
  fst res = Blocked
  /\ trace (snd res) = trace Sample.started
  /\ Transfer Sample.ec Sample.net "A" (snd res)
     = (Returned (Some "already transferring"), snd res)
  /\ Server (snd res) = (Blocked, snd res).
Proof.
  destruct (waiting_Transfer_rejects_others
              Sample.ec Sample.net Sample.net "B" "A" (RLock Sample.started)
              eq_refl eq_refl)
    as (Hwait & Htrace & _ & _ & Hother & Hserver).
  split; [exact Hwait|]. split; [exact Htrace|].
  split; [exact Hother|exact Hserver].
Defined.
